(** * TFLI2C: the TF-Luna I2C driver (src/src/TFLI2C.cpp)

    A shallow embedding of the driver class [TFLI2C] and of the part of
    the Arduino [TwoWire] interface it calls, followed by the properties
    of its status slot, its data-validity policy and its register
    sequences. *)

From Stdlib Require Import ZArith Lia List Bool.
From Stdlib Require String Ascii.
From stdpp Require Import base list.
Import ListNotations.
Import String.StringSyntax.
Delimit Scope string_scope with string.
Local Open Scope Z_scope.

(** ** Fixed-width integers

    [uint8_t], [uint16_t] and [int16_t] values are integers of [Z] with
    the wrap-around of the conversion written out. *)

Definition u8 (x : Z) : Z := x mod 256.
Definition u16 (x : Z) : Z := x mod 65536.
Definition i16 (x : Z) : Z := (x + 32768) mod 65536 - 32768.

(** ** Status codes *)

(** Modelled from the spec: the status macros [TFL_READY] ... of the
    header TFLI2C.h, which is not part of src/.  Section 3 of the spec
    gives them as one enumeration; the names are the ones [printStatus]
    tests, and [TFL_OTHER] stands for every value it prints as OTHER. *)
Inductive StatusCode : Set :=
| TFL_READY | TFL_SERIAL | TFL_HEADER | TFL_CHECKSUM | TFL_TIMEOUT
| TFL_PASS | TFL_FAIL | TFL_I2CREAD | TFL_I2CWRITE | TFL_I2CLENGTH
| TFL_WEAK | TFL_STRONG | TFL_FLOOD | TFL_INVALID | TFL_OTHER.

Definition StatusCode_eqb (a b : StatusCode) : bool :=
  match a, b with
  | TFL_READY, TFL_READY | TFL_SERIAL, TFL_SERIAL | TFL_HEADER, TFL_HEADER
  | TFL_CHECKSUM, TFL_CHECKSUM | TFL_TIMEOUT, TFL_TIMEOUT | TFL_PASS, TFL_PASS
  | TFL_FAIL, TFL_FAIL | TFL_I2CREAD, TFL_I2CREAD | TFL_I2CWRITE, TFL_I2CWRITE
  | TFL_I2CLENGTH, TFL_I2CLENGTH | TFL_WEAK, TFL_WEAK | TFL_STRONG, TFL_STRONG
  | TFL_FLOOD, TFL_FLOOD | TFL_INVALID, TFL_INVALID | TFL_OTHER, TFL_OTHER => true
  | _, _ => false
  end.

(** ** Register map *)

(** Modelled from the spec: the six measurement registers of TFLI2C.h,
    which is not part of src/.  Section 6 of the spec places them at six
    consecutive offsets from a fixed base; [getData] stores register
    [reg] at [dataArray[reg]] and reads the six bytes back at indices 0
    to 5, which fixes the base at 0. *)
Definition TFL_DIST_LO : Z := 0x00.
Definition TFL_DIST_HI : Z := 0x01.
Definition TFL_FLUX_LO : Z := 0x02.
Definition TFL_FLUX_HI : Z := 0x03.
Definition TFL_TEMP_LO : Z := 0x04.
Definition TFL_TEMP_HI : Z := 0x05.

(** The remaining register macros of TFLI2C.h.  Their values come from
    the device datasheet and are not in src/: the driver is
    parameterised by them. *)
Class RegisterMap : Set := {
  TFL_TICK_LO : Z;
  TFL_TICK_HI : Z;
  TFL_SAVE_SETTINGS : Z;
  TFL_SOFT_RESET : Z;
  TFL_SET_I2C_ADDR : Z;
  TFL_SET_TRIG_MODE : Z;
  TFL_TRIGGER : Z;
  TFL_DISABLE : Z;
  TFL_FPS_LO : Z;
  TFL_FPS_HI : Z;
  TFL_HARD_RESET : Z
}.

(** ** The bus transport

    The calls the driver makes on [*_Wire].  A transport is any type
    with these six operations; the value each returns is the one the
    driver looks at ([write] and [requestFrom] return counts the driver
    drops). *)
Class TwoWire (W : Type) : Type := {
  beginTransmission : Z -> W -> W;
  write : Z -> W -> W;
  endTransmission : bool -> W -> Z * W;
  requestFrom : Z -> Z -> bool -> W -> W;
  peek : W -> Z * W;
  read : W -> Z * W
}.

(** One entry of the history of calls made on the bus. *)
Inductive WireCall : Set :=
| BeginTransmission (addr : Z)
| Write (b : Z)
| EndTransmission (sendStop : bool)
| RequestFrom (addr quantity : Z) (sendStop : bool)
| Peek
| Read.

(** ** Caller memory

    The driver receives its results through references ([int16_t &],
    [uint16_t &]) and byte pointers, and reads a [uint16_t] through a
    [uint8_t *].  Caller memory is byte addressed; a 16-bit object at
    address [a] has its low byte at [a] and its high byte at [a + 1],
    as on the little-endian targets the library is built for. *)
Definition Ram : Type := Z -> Z.

Definition load8 (m : Ram) (a : Z) : Z := u8 (m a).
Definition store8 (m : Ram) (a v : Z) : Ram :=
  fun x => if x =? a then u8 v else m x.

Definition load_u16 (m : Ram) (a : Z) : Z := load8 m a + 256 * load8 m (a + 1).
Definition load_i16 (m : Ram) (a : Z) : Z := i16 (load_u16 m a).
Definition store16 (m : Ram) (a v : Z) : Ram :=
  store8 (store8 m a (u16 v)) (a + 1) (u16 v / 256).

(** ** Driver state

    The fields of a [TFLI2C] object ([tfStatus], [regReply],
    [dataArray], the bus behind [_Wire]), the caller memory its
    reference and pointer arguments point into, and the history of the
    calls made on the bus so far. *)
Record State (W : Type) : Type := mkState {
  tfStatus : StatusCode;
  regReply : Z;
  dataArray : list Z;
  _Wire : W;
  ram : Ram;
  bus_log : list WireCall
}.
Arguments mkState {W}.
Arguments tfStatus {W}.
Arguments regReply {W}.
Arguments dataArray {W}.
Arguments _Wire {W}.
Arguments ram {W}.
Arguments bus_log {W}.

(** ** State monad *)

Definition M (W A : Type) : Type := State W -> A * State W.

Definition ret {W A} (a : A) : M W A := fun s => (a, s).
Definition bind {W A B} (c : M W A) (k : A -> M W B) : M W B :=
  fun s => let (a, s') := c s in k a s'.

Declare Scope drv_scope.
Delimit Scope drv_scope with drv.
Notation "x <- c ;; k" := (bind c (fun x => k))
  (at level 100, c at next level, right associativity) : drv_scope.
Notation "c ;; k" := (bind c (fun _ => k))
  (at level 100, right associativity) : drv_scope.
Local Open Scope drv_scope.

Section Driver.
Context {W : Type} {wire : TwoWire W} {regs : RegisterMap}.

Definition set_tfStatus (c : StatusCode) : M W unit := fun s =>
  (tt, mkState c (regReply s) (dataArray s) (_Wire s) (ram s) (bus_log s)).
Definition set_regReply (v : Z) : M W unit := fun s =>
  (tt, mkState (tfStatus s) v (dataArray s) (_Wire s) (ram s) (bus_log s)).
Definition get_regReply : M W Z := fun s => (regReply s, s).
(** [dataArray[i] = v] *)
Definition set_dataArray (i v : Z) : M W unit := fun s =>
  (tt, mkState (tfStatus s) (regReply s) (<[Z.to_nat i := v]> (dataArray s))
               (_Wire s) (ram s) (bus_log s)).
(** [dataArray[i]] *)
Definition get_dataArray (i : Z) : M W Z := fun s =>
  (nth (Z.to_nat i) (dataArray s) 0, s).
Definition poke8 (a v : Z) : M W unit := fun s =>
  (tt, mkState (tfStatus s) (regReply s) (dataArray s) (_Wire s)
               (store8 (ram s) a v) (bus_log s)).
Definition peek8 (a : Z) : M W Z := fun s => (load8 (ram s) a, s).
Definition poke16 (a v : Z) : M W unit := fun s =>
  (tt, mkState (tfStatus s) (regReply s) (dataArray s) (_Wire s)
               (store16 (ram s) a v) (bus_log s)).
Definition peek_i16 (a : Z) : M W Z := fun s => (load_i16 (ram s) a, s).

(** A call on [*_Wire]: the transport moves on and the call is
    appended to the history. *)
Definition bus_call {A} (c : WireCall) (f : W -> A * W) : M W A := fun s =>
  let (a, w) := f (_Wire s) in
  (a, mkState (tfStatus s) (regReply s) (dataArray s) w (ram s)
              (bus_log s ++ [c])).

Definition Wire_beginTransmission (addr : Z) : M W unit :=
  bus_call (BeginTransmission addr) (fun w => (tt, beginTransmission addr w)).
Definition Wire_write (b : Z) : M W unit :=
  bus_call (Write b) (fun w => (tt, write b w)).
Definition Wire_endTransmission (sendStop : bool) : M W Z :=
  bus_call (EndTransmission sendStop) (endTransmission sendStop).
Definition Wire_requestFrom (addr quantity : Z) (sendStop : bool) : M W unit :=
  bus_call (RequestFrom addr quantity sendStop)
           (fun w => (tt, requestFrom addr quantity sendStop w)).
Definition Wire_peek : M W Z := bus_call Peek peek.
Definition Wire_read : M W Z := bus_call Read read.

(** *** Register primitives (lines 240-273) *)

(** [endTransmission()] is [endTransmission(true)]. *)
Definition readReg (nmbr addr : Z) : M W bool :=
  Wire_beginTransmission addr ;;
  Wire_write nmbr ;;
  rc <- Wire_endTransmission true ;;
  if negb (rc =? 0) then
    set_tfStatus TFL_I2CWRITE ;;
    ret false
  else
    Wire_requestFrom addr 1 true ;;
    p <- Wire_peek ;;
    if p =? -1 then
      set_tfStatus TFL_I2CREAD ;;
      ret false
    else
      v <- Wire_read ;;
      set_regReply (u8 v) ;;
      ret true.

Definition writeReg (nmbr addr data : Z) : M W bool :=
  Wire_beginTransmission addr ;;
  Wire_write nmbr ;;
  Wire_write data ;;
  rc <- Wire_endTransmission true ;;
  if negb (rc =? 0) then
    set_tfStatus TFL_I2CWRITE ;;
    ret false
  else ret true.

(** *** Measurement acquisition (lines 43-98) *)

(** [for (uint8_t reg = TFL_DIST_LO; reg <= TFL_TEMP_HI; reg++)]:
    [n] is the number of iterations left, [TFL_TEMP_HI + 1 - reg].
    The result is [false] when the body returned from [getData]. *)
Fixpoint getData_loop (n : nat) (reg addr : Z) : M W bool :=
  match n with
  | O => ret true
  | S n' =>
      ok <- readReg reg addr ;;
      if negb ok then ret false
      else
        r <- get_regReply ;;
        set_dataArray reg r ;;
        getData_loop n' (u8 (reg + 1)) addr
  end.

(** [dist], [flux] and [temp] are the addresses of the caller's three
    [int16_t] variables. *)
Definition getData (dist flux temp addr : Z) : M W bool :=
  set_tfStatus TFL_READY ;;
  ok <- getData_loop (Z.to_nat (TFL_TEMP_HI + 1 - TFL_DIST_LO)) TFL_DIST_LO addr ;;
  if negb ok then ret false
  else
    d0 <- get_dataArray 0 ;;
    d1 <- get_dataArray 1 ;;
    poke16 dist (d0 + Z.shiftl d1 8) ;;
    d2 <- get_dataArray 2 ;;
    d3 <- get_dataArray 3 ;;
    poke16 flux (d2 + Z.shiftl d3 8) ;;
    d4 <- get_dataArray 4 ;;
    d5 <- get_dataArray 5 ;;
    poke16 temp (d4 + Z.shiftl d5 8) ;;
    f <- peek_i16 flux ;;
    if f <? i16 100 then
      set_tfStatus TFL_WEAK ;;
      ret false
    else
      f' <- peek_i16 flux ;;
      if f' =? i16 0xFFFF then
        set_tfStatus TFL_STRONG ;;
        ret false
      else
        set_tfStatus TFL_READY ;;
        ret true.

(** The short version; [flux] and [temp] are the addresses of its two
    [static int16_t] locals. *)
Definition getData_short (flux temp : Z) (dist addr : Z) : M W bool :=
  getData dist flux temp addr.

(** *** Explicit commands (lines 104-228) *)

Definition Get_Time (tim adr : Z) : M W bool :=
  let p_tim := tim in
  ok <- readReg (u8 TFL_TICK_LO) adr ;;
  if negb ok then ret false
  else
    r <- get_regReply ;;
    poke8 (p_tim + 0) r ;;
    ok <- readReg (u8 TFL_TICK_HI) adr ;;
    if negb ok then ret false
    else
      r <- get_regReply ;;
      poke8 (p_tim + 1) r ;;
      ret true.

(** [for (uint8_t i = 0; i < 14; ++i)], with [n = 14 - i] iterations
    left. *)
Fixpoint Get_Prod_Code_loop (n : nat) (i p_cod adr : Z) : M W bool :=
  match n with
  | O => ret true
  | S n' =>
      ok <- readReg (u8 (0x10 + i)) adr ;;
      if negb ok then ret false
      else
        r <- get_regReply ;;
        poke8 (p_cod + i) r ;;
        Get_Prod_Code_loop n' (u8 (i + 1)) p_cod adr
  end.

Definition Get_Prod_Code (p_cod adr : Z) : M W bool :=
  Get_Prod_Code_loop 14 0 p_cod adr.

(** [for (uint8_t i = 0; i < 3; ++i)], with [n = 3 - i] iterations
    left. *)
Fixpoint Get_Firmware_Version_loop (n : nat) (i p_ver adr : Z) : M W bool :=
  match n with
  | O => ret true
  | S n' =>
      ok <- readReg (u8 (0x0A + i)) adr ;;
      if negb ok then ret false
      else
        r <- get_regReply ;;
        poke8 (p_ver + i) r ;;
        Get_Firmware_Version_loop n' (u8 (i + 1)) p_ver adr
  end.

Definition Get_Firmware_Version (p_ver adr : Z) : M W bool :=
  Get_Firmware_Version_loop 3 0 p_ver adr.

Definition Save_Settings (adr : Z) : M W bool :=
  writeReg (u8 TFL_SAVE_SETTINGS) adr 1.

Definition Soft_Reset (adr : Z) : M W bool :=
  writeReg (u8 TFL_SOFT_RESET) adr 2.

Definition Set_I2C_Addr (adrNew adr : Z) : M W bool :=
  writeReg (u8 TFL_SET_I2C_ADDR) adr adrNew.

Definition Set_Enable (adr : Z) : M W bool :=
  writeReg (u8 TFL_DISABLE) adr 1.

Definition Set_Disable (adr : Z) : M W bool :=
  writeReg (u8 TFL_DISABLE) adr 0.

(** [frm] is the address of the caller's [uint16_t]; [p_frm[0]] and
    [p_frm[1]] are its two bytes. *)
Definition Set_Frame_Rate (frm adr : Z) : M W bool :=
  let p_frm := frm in
  b0 <- peek8 (p_frm + 0) ;;
  ok <- writeReg (u8 TFL_FPS_LO) adr b0 ;;
  if negb ok then ret false
  else
    b1 <- peek8 (p_frm + 1) ;;
    ok <- writeReg (u8 TFL_FPS_HI) adr b1 ;;
    if negb ok then ret false
    else ret true.

Definition Get_Frame_Rate (frm adr : Z) : M W bool :=
  let p_frm := frm in
  ok <- readReg (u8 TFL_FPS_LO) adr ;;
  if negb ok then ret false
  else
    r <- get_regReply ;;
    poke8 (p_frm + 0) r ;;
    ok <- readReg (u8 TFL_FPS_HI) adr ;;
    if negb ok then ret false
    else
      r <- get_regReply ;;
      poke8 (p_frm + 1) r ;;
      ret true.

Definition Hard_Reset (adr : Z) : M W bool :=
  writeReg (u8 TFL_HARD_RESET) adr 1.

Definition Set_Cont_Mode (adr : Z) : M W bool :=
  writeReg (u8 TFL_SET_TRIG_MODE) adr 0.

Definition Set_Trig_Mode (adr : Z) : M W bool :=
  writeReg (u8 TFL_SET_TRIG_MODE) adr 1.

Definition Set_Trigger (adr : Z) : M W bool :=
  writeReg (u8 TFL_TRIGGER) adr 1.

(** *** The operations of the driver *)

Inductive Operation : Set :=
| Op_getData (dist flux temp addr : Z)
| Op_getData_short (flux temp dist addr : Z)
| Op_Get_Time (tim adr : Z)
| Op_Get_Prod_Code (p_cod adr : Z)
| Op_Get_Firmware_Version (p_ver adr : Z)
| Op_Save_Settings (adr : Z)
| Op_Soft_Reset (adr : Z)
| Op_Set_I2C_Addr (adrNew adr : Z)
| Op_Set_Enable (adr : Z)
| Op_Set_Disable (adr : Z)
| Op_Set_Frame_Rate (frm adr : Z)
| Op_Get_Frame_Rate (frm adr : Z)
| Op_Hard_Reset (adr : Z)
| Op_Set_Cont_Mode (adr : Z)
| Op_Set_Trig_Mode (adr : Z)
| Op_Set_Trigger (adr : Z)
| Op_readReg (nmbr addr : Z)
| Op_writeReg (nmbr addr data : Z).

Definition run (op : Operation) : M W bool :=
  match op with
  | Op_getData dist flux temp addr => getData dist flux temp addr
  | Op_getData_short flux temp dist addr => getData_short flux temp dist addr
  | Op_Get_Time tim adr => Get_Time tim adr
  | Op_Get_Prod_Code p_cod adr => Get_Prod_Code p_cod adr
  | Op_Get_Firmware_Version p_ver adr => Get_Firmware_Version p_ver adr
  | Op_Save_Settings adr => Save_Settings adr
  | Op_Soft_Reset adr => Soft_Reset adr
  | Op_Set_I2C_Addr adrNew adr => Set_I2C_Addr adrNew adr
  | Op_Set_Enable adr => Set_Enable adr
  | Op_Set_Disable adr => Set_Disable adr
  | Op_Set_Frame_Rate frm adr => Set_Frame_Rate frm adr
  | Op_Get_Frame_Rate frm adr => Get_Frame_Rate frm adr
  | Op_Hard_Reset adr => Hard_Reset adr
  | Op_Set_Cont_Mode adr => Set_Cont_Mode adr
  | Op_Set_Trig_Mode adr => Set_Trig_Mode adr
  | Op_Set_Trigger adr => Set_Trigger adr
  | Op_readReg nmbr addr => readReg nmbr addr
  | Op_writeReg nmbr addr data => writeReg nmbr addr data
  end.

(** [getData] is the one operation that resets the status slot. *)
Definition is_getData (op : Operation) : bool :=
  match op with
  | Op_getData _ _ _ _ | Op_getData_short _ _ _ _ => true
  | _ => false
  end.

(** *** What the transport answers

    The exchanges of [readReg] and [writeReg] seen from the bus: the
    answer of the transport and the transport afterwards. *)

Inductive ReadReply : Set :=
| ReadNack (rc : Z)    (* endTransmission returned rc <> 0 *)
| ReadEmpty            (* peek returned -1 *)
| ReadByte (v : Z).    (* the byte received *)

Definition bus_read (nmbr addr : Z) (w : W) : ReadReply * W :=
  let (rc, w1) := endTransmission true (write nmbr (beginTransmission addr w)) in
  if negb (rc =? 0) then (ReadNack rc, w1)
  else
    let (p, w2) := peek (requestFrom addr 1 true w1) in
    if p =? -1 then (ReadEmpty, w2)
    else
      let (v, w3) := read w2 in
      (ReadByte (u8 v), w3).

Definition bus_write (nmbr addr data : Z) (w : W) : Z * W :=
  endTransmission true (write data (write nmbr (beginTransmission addr w))).

(** The registers [reg], [reg + 1], ... are read one after the other
    and each read delivers a byte: [Some] of the bytes and of the
    transport afterwards. *)
Fixpoint bus_reads (n : nat) (reg addr : Z) (w : W) : option (list Z * W) :=
  match n with
  | O => Some ([], w)
  | S n' =>
      match bus_read (u8 reg) addr w with
      | (ReadByte v, w') =>
          match bus_reads n' (reg + 1) addr w' with
          | Some (vs, w'') => Some (v :: vs, w'')
          | None => None
          end
      | _ => None
      end
  end.

(** The calls one exchange puts on the bus. *)
Definition write_calls (nmbr addr data : Z) : list WireCall :=
  [BeginTransmission addr; Write nmbr; Write data; EndTransmission true].

Definition read_calls (nmbr addr : Z) (r : ReadReply) : list WireCall :=
  [BeginTransmission addr; Write nmbr; EndTransmission true] ++
  match r with
  | ReadNack _ => []
  | ReadEmpty => [RequestFrom addr 1 true; Peek]
  | ReadByte _ => [RequestFrom addr 1 true; Peek; Read]
  end.

(** The calls of [n] reads of the registers [reg], [reg + 1], ... that
    each deliver a byte. *)
Fixpoint reads_calls (n : nat) (reg addr : Z) : list WireCall :=
  match n with
  | O => []
  | S n' =>
      [BeginTransmission addr; Write (u8 reg); EndTransmission true;
       RequestFrom addr 1 true; Peek; Read] ++ reads_calls n' (reg + 1) addr
  end.

(** The number of exchanges a history starts. *)
Fixpoint exchanges (calls : list WireCall) : nat :=
  match calls with
  | [] => O
  | BeginTransmission _ :: rest => S (exchanges rest)
  | _ :: rest => exchanges rest
  end.

End Driver.

(** The state [s] with its status slot holding [c], as an earlier call
    may have left it. *)
Definition with_status {W} (c : StatusCode) (s : State W) : State W :=
  mkState c (regReply s) (dataArray s) (_Wire s) (ram s) (bus_log s).

(** ** Two transports

    *** A scripted bus

    The bus answers the exchanges in the order of a script, one entry
    per [endTransmission]: a negative acknowledge with its code, an
    acknowledge after which no byte becomes available, or an acknowledge
    after which one byte does.  Once the script is used up nothing
    answers any more (code 2, address not acknowledged). *)
Inductive Answer : Set :=
| Nack (rc : Z)
| NoData
| Data (b : Z).

Record Scripted : Set := mkScripted {
  script : list Answer;
  rx : option Z
}.

Definition scripted_end (w : Scripted) : Z * Scripted :=
  match script w with
  | [] => (2, mkScripted [] None)
  | Nack rc :: rest => (rc, mkScripted rest None)
  | NoData :: rest => (0, mkScripted rest None)
  | Data b :: rest => (0, mkScripted rest (Some b))
  end.

Definition scripted_peek (w : Scripted) : Z :=
  match rx w with
  | Some b => b
  | None => -1
  end.

#[export] Instance Scripted_TwoWire : TwoWire Scripted := {
  beginTransmission _ w := w;
  write _ w := w;
  endTransmission _ w := scripted_end w;
  requestFrom _ _ _ w := w;
  peek w := (scripted_peek w, w);
  read w := (scripted_peek w, mkScripted (script w) None)
}.

(** *** A register file

    One device whose registers keep what is written to them.  A
    transmission carries the register number and then the bytes to
    store from that register on; a request returns bytes from the
    register last addressed. *)
Record RegFile : Type := mkRegFile {
  cells : Z -> Z;
  pointer : Z;
  tx_buf : list Z;
  rx_buf : list Z
}.

Fixpoint store_from (c : Z -> Z) (n : Z) (bytes : list Z) : Z -> Z :=
  match bytes with
  | [] => c
  | b :: rest => store_from (fun r => if r =? n then u8 b else c r) (u8 (n + 1)) rest
  end.

Definition regfile_end (w : RegFile) : Z * RegFile :=
  match tx_buf w with
  | [] => (0, w)
  | n :: bytes => (0, mkRegFile (store_from (cells w) (u8 n) bytes) (u8 n) [] (rx_buf w))
  end.

Fixpoint fetch_from (c : Z -> Z) (n : Z) (count : nat) : list Z :=
  match count with
  | O => []
  | S k => u8 (c n) :: fetch_from c (u8 (n + 1)) k
  end.

#[export] Instance RegFile_TwoWire : TwoWire RegFile := {
  beginTransmission _ w := mkRegFile (cells w) (pointer w) [] (rx_buf w);
  write b w := mkRegFile (cells w) (pointer w) (tx_buf w ++ [b]) (rx_buf w);
  endTransmission _ w := regfile_end w;
  requestFrom _ quantity _ w :=
    mkRegFile (cells w) (pointer w) (tx_buf w)
              (fetch_from (cells w) (pointer w) (Z.to_nat quantity));
  peek w := (match rx_buf w with b :: _ => b | [] => -1 end, w);
  read w :=
    match rx_buf w with
    | b :: rest => (b, mkRegFile (cells w) (pointer w) (tx_buf w) rest)
    | [] => (-1, w)
    end
}.

(** The register numbers of the TF-Luna datasheet, for running the
    driver on a concrete bus. *)
#[export] Instance TFLuna_registers : RegisterMap := {
  TFL_TICK_LO := 0x06;
  TFL_TICK_HI := 0x07;
  TFL_SAVE_SETTINGS := 0x20;
  TFL_SOFT_RESET := 0x21;
  TFL_SET_I2C_ADDR := 0x22;
  TFL_SET_TRIG_MODE := 0x23;
  TFL_TRIGGER := 0x24;
  TFL_DISABLE := 0x25;
  TFL_FPS_LO := 0x26;
  TFL_FPS_HI := 0x27;
  TFL_HARD_RESET := 0x29
}.

(** A fresh driver object on the bus [w]: status Ready, a six-byte
    [dataArray], zeroed caller memory, nothing on the bus yet. *)
Definition fresh {W} (w : W) : State W :=
  mkState TFL_READY 0 [0; 0; 0; 0; 0; 0] w (fun _ => 0) [].

Definition on_script (answers : list Answer) : State Scripted :=
  fresh (mkScripted answers None).

(** ** Outcomes of the primitives and of the register sequences *)

Definition read_ok (r : ReadReply) : bool :=
  match r with
  | ReadByte _ => true
  | _ => false
  end.

(** The status slot after [readReg] got the answer [r], when it held
    [before]. *)
Definition read_status (r : ReadReply) (before : StatusCode) : StatusCode :=
  match r with
  | ReadNack _ => TFL_I2CWRITE
  | ReadEmpty => TFL_I2CREAD
  | ReadByte _ => before
  end.

(** The state [readReg] leaves when the bus answered [r] and moved
    to [w']. *)
Definition after_read {W} (nmbr addr : Z) (r : ReadReply) (w' : W) (s : State W) : State W :=
  mkState (read_status r (tfStatus s))
          (match r with
           | ReadByte v => v
           | _ => regReply s
           end)
          (dataArray s) w' (ram s) (bus_log s ++ read_calls nmbr addr r).

(** The state [writeReg] leaves when [endTransmission] returned [rc]. *)
Definition after_write {W} (nmbr addr data rc : Z) (w' : W) (s : State W) : State W :=
  mkState (if rc =? 0 then tfStatus s else TFL_I2CWRITE)
          (regReply s) (dataArray s) w' (ram s)
          (bus_log s ++ write_calls nmbr addr data).

(** [dataArray] after the bytes [vs] were stored at [i], [i + 1], ... *)
Fixpoint fill (l : list Z) (i : Z) (vs : list Z) : list Z :=
  match vs with
  | [] => l
  | v :: rest => fill (<[Z.to_nat i := v]> l) (i + 1) rest
  end.

(** Caller memory after the bytes [vs] were stored at [a], [a + 1], ... *)
Fixpoint store_bytes (m : Ram) (a : Z) (vs : list Z) : Ram :=
  match vs with
  | [] => m
  | v :: rest => store_bytes (store8 m a v) (a + 1) rest
  end.

(** [regReply] after the bytes [vs] were received one after the other,
    when it held [d]. *)
Fixpoint last_byte (d : Z) (vs : list Z) : Z :=
  match vs with
  | [] => d
  | v :: rest => last_byte v rest
  end.

(** The state after the first [n] iterations of the loop of [getData],
    started at register [reg], read the bytes [vs] and left the bus
    at [w']. *)
Definition after_data_reads {W} (n : nat) (reg addr : Z) (vs : list Z) (w' : W)
    (s : State W) : State W :=
  mkState (tfStatus s) (last_byte (regReply s) vs) (fill (dataArray s) reg vs)
          w' (ram s) (bus_log s ++ reads_calls n reg addr).

(** The state after the first [n] iterations of the loop of
    [Get_Prod_Code], started at index [i], read the bytes [vs]. *)
Definition after_code_reads {W} (n : nat) (i p_cod adr : Z) (vs : list Z) (w' : W)
    (s : State W) : State W :=
  mkState (tfStatus s) (last_byte (regReply s) vs) (dataArray s)
          w' (store_bytes (ram s) (p_cod + i) vs)
          (bus_log s ++ reads_calls n (0x10 + i) adr).

(** Caller memory after [getData] assigned [dist], [flux] and [temp]
    from the six bytes. *)
Definition measured (m : Ram) (dist flux temp : Z) (b0 b1 b2 b3 b4 b5 : Z) : Ram :=
  store16 (store16 (store16 m dist (b0 + Z.shiftl b1 8))
                   flux (b2 + Z.shiftl b3 8))
          temp (b4 + Z.shiftl b5 8).

(** The validity policy of [getData] on the flux variable as read
    back: the status it leaves. *)
Definition flux_status (f : Z) : StatusCode :=
  if f <? i16 100 then TFL_WEAK
  else if f =? i16 0xFFFF then TFL_STRONG
  else TFL_READY.

(** Two 16-bit objects at [a] and [b] that share no byte. *)
Definition apart (a b : Z) : Prop := a + 1 < b \/ b + 1 < a.

(** The value an [int16_t] holds after [x = lo + (hi << 8)]. *)
Definition le16 (lo hi : Z) : Z := i16 (lo + Z.shiftl hi 8).

(** A 16-bit field assembled from the bytes [lo] and [hi]: its bit
    pattern is lo + hi * 256, and its value, the field being signed, is
    that number when hi < 0x80 and that number less 65536 otherwise. *)
Definition little_endian_field (v lo hi : Z) : Prop :=
  u16 v = lo + hi * 256 /\
  v = if hi <? 128 then lo + hi * 256 else lo + hi * 256 - 65536.

(** The status slot reflects the outcome [r] of a call: Ready after a
    success, an error code after a failure. *)
Definition reflects_outcome (r : bool) (c : StatusCode) : Prop :=
  if r then c = TFL_READY else c <> TFL_READY.

(** A step that neither reads nor writes the status slot. *)
Definition status_neutral {W A} (g : M W A) : Prop :=
  forall s,
    tfStatus (g s).2 = tfStatus s /\
    forall c, g (with_status c s) = ((g s).1, with_status c (g s).2).

(** A computation that leaves the status slot alone when it returns
    [true], and overwrites it with a transport error when it returns
    [false]; what it does otherwise does not depend on the slot. *)
Definition command_like {W} (c : M W bool) : Prop :=
  forall s,
    (if (c s).1 then tfStatus (c s).2 = tfStatus s
     else tfStatus (c s).2 = TFL_I2CWRITE \/ tfStatus (c s).2 = TFL_I2CREAD) /\
    forall st,
      c (with_status st s) =
      ((c s).1, if (c s).1 then with_status st (c s).2 else (c s).2).

(** A transport whose registers keep the byte last written to them:
    [held w addr reg] is the byte register [reg] of device [addr]
    holds.  A write exchange that is acknowledged stores its byte, and a
    read exchange that delivers a byte delivers the one held, and
    changes none. *)
Class EchoRegisters (W : Type) {wire : TwoWire W} : Type := {
  held : W -> Z -> Z -> Z;
  held_write : forall nmbr addr data w w',
    bus_write nmbr addr data w = (0, w') ->
    forall reg,
      held w' addr reg = if reg =? u8 nmbr then u8 data else held w addr reg;
  held_read : forall nmbr addr w v w',
    bus_read nmbr addr w = (ReadByte v, w') ->
    v = u8 (held w addr (u8 nmbr)) /\
    forall reg, held w' addr reg = held w addr reg
}.

(** The register file is such a transport. *)
#[export] Instance RegFile_echo : EchoRegisters RegFile.
Proof.
  refine {| held w _ reg := cells w reg |}.
  - intros nmbr addr data w w'.
    unfold bus_write; simpl. unfold regfile_end; simpl.
    intros H reg. injection H as <-. reflexivity.
  - intros nmbr addr w v w'.
    unfold bus_read; simpl.
    assert (Hbyte : 0 <= u8 (cells w (u8 nmbr)) < 256)
      by (unfold u8 at 1; apply Z.mod_pos_bound; lia).
    destruct (u8 (cells w (u8 nmbr)) =? -1) eqn:E.
    + apply Z.eqb_eq in E. lia.
    + intros H. injection H as <- <-. simpl.
      split; [| reflexivity].
      unfold u8 at 1. now rewrite Z.mod_small.
Defined.

(** An empty register file. *)
Definition blank_device : RegFile := mkRegFile (fun _ => 0) 0 [] [].

(** ** Outcomes of the other register sequences *)

(** The state after the first [n] iterations of the loop of
    [Get_Firmware_Version], started at index [i], read the bytes [vs]. *)
Definition after_version_reads {W} (n : nat) (i p_ver adr : Z) (vs : list Z) (w' : W)
    (s : State W) : State W :=
  mkState (tfStatus s) (last_byte (regReply s) vs) (dataArray s)
          w' (store_bytes (ram s) (p_ver + i) vs)
          (bus_log s ++ reads_calls n (0x0A + i) adr).

(** The [n] bytes of caller memory from address [a] on. *)
Definition within (a n x : Z) : Prop := a <= x < a + n.

(** The bytes of caller memory an operation is handed to write: the
    objects behind its references and the buffers behind its
    pointers. *)
Definition footprint (op : Operation) (x : Z) : Prop :=
  match op with
  | Op_getData dist flux temp _ | Op_getData_short flux temp dist _ =>
      within dist 2 x \/ within flux 2 x \/ within temp 2 x
  | Op_Get_Time tim _ => within tim 2 x
  | Op_Get_Prod_Code p_cod _ => within p_cod 14 x
  | Op_Get_Firmware_Version p_ver _ => within p_ver 3 x
  | Op_Get_Frame_Rate frm _ => within frm 2 x
  | _ => False
  end.

(** The number of bus exchanges an operation makes when every one of
    them succeeds. *)
Definition max_exchanges (op : Operation) : nat :=
  match op with
  | Op_getData _ _ _ _ | Op_getData_short _ _ _ _ => 6
  | Op_Get_Prod_Code _ _ => 14
  | Op_Get_Firmware_Version _ _ => 3
  | Op_Get_Time _ _ | Op_Set_Frame_Rate _ _ | Op_Get_Frame_Rate _ _ => 2
  | _ => 1
  end.

(** *** The discipline of the bus

    Where a [TwoWire] bus stands between two calls: idle, inside a
    transmission that was begun, after a transmission was ended, after
    bytes were requested, after the receive buffer was peeked. *)
Inductive BusPhase : Set := Idle | Sending | Ended | Requested | Peeked.

(** The calls that make sense in each phase: bytes are written inside a
    transmission only, a transmission is begun only when none is open,
    bytes are requested after a transmission was ended, and [read]
    follows a [peek] that follows the request. *)
Definition phase_step (p : BusPhase) (c : WireCall) : option BusPhase :=
  match p, c with
  | (Idle | Ended | Peeked), BeginTransmission _ => Some Sending
  | Sending, Write _ => Some Sending
  | Sending, EndTransmission _ => Some Ended
  | Ended, RequestFrom _ _ _ => Some Requested
  | Requested, Peek => Some Peeked
  | Peeked, Read => Some Idle
  | _, _ => None
  end.

Fixpoint run_phase (p : BusPhase) (calls : list WireCall) : option BusPhase :=
  match calls with
  | [] => Some p
  | c :: rest =>
      match phase_step p c with
      | Some q => run_phase q rest
      | None => None
      end
  end.

(** No transmission is open and no request is pending. *)
Definition quiet (p : BusPhase) : bool :=
  match p with
  | Idle | Ended | Peeked => true
  | Sending | Requested => false
  end.

(** The calls [added] keep the discipline: from any quiet phase they
    are all allowed and lead to a quiet phase. *)
Definition disciplined (added : list WireCall) : Prop :=
  forall p, quiet p = true ->
    exists q, run_phase p added = Some q /\ quiet q = true.

(** Every run of [c] relates the state before to the state after
    by [R]. *)
Definition steps_in {W A} (R : State W -> State W -> Prop) (c : M W A) : Prop :=
  forall s, R s (c s).2.

(** Caller memory is the same outside the bytes [P]. *)
Definition ram_outside {W} (P : Z -> Prop) (s s' : State W) : Prop :=
  forall x, ~ P x -> ram s' x = ram s x.

(** The bus history grew by at most [n] exchanges, which keep the
    discipline. *)
Definition log_grows {W} (n : nat) (s s' : State W) : Prop :=
  exists added,
    bus_log s' = bus_log s ++ added /\
    disciplined added /\
    (exchanges added <= n)%nat.


(** What [Get_Time] and [Get_Frame_Rate] share: two registers read into
    the two bytes of the [uint16_t] at [p], low byte first. *)
Definition read_pair {W} {wire : TwoWire W} (lo hi p adr : Z) : M W bool :=
  ok <- readReg lo adr ;;
  if negb ok then ret false
  else
    r <- get_regReply ;;
    poke8 (p + 0) r ;;
    ok <- readReg hi adr ;;
    if negb ok then ret false
    else
      r <- get_regReply ;;
      poke8 (p + 1) r ;;
      ret true.


(** ** Diagnostics (lines 279-316)

    [printStatus] and [printDataArray] send text to [Serial]; each is
    the text it sends. *)

(** The chain of tests of [printStatus] on [tfStatus]. *)
Definition status_text (c : StatusCode) : String.string :=
  match c with
  | TFL_READY => "READY"%string
  | TFL_SERIAL => "SERIAL"%string
  | TFL_HEADER => "HEADER"%string
  | TFL_CHECKSUM => "CHECKSUM"%string
  | TFL_TIMEOUT => "TIMEOUT"%string
  | TFL_PASS => "PASS"%string
  | TFL_FAIL => "FAIL"%string
  | TFL_I2CREAD => "I2C-READ"%string
  | TFL_I2CWRITE => "I2C-WRITE"%string
  | TFL_I2CLENGTH => "I2C-LENGTH"%string
  | TFL_WEAK => "Signal weak"%string
  | TFL_STRONG => "Signal strong"%string
  | TFL_FLOOD => "Ambient light"%string
  | TFL_INVALID => "No Command"%string
  | TFL_OTHER => "OTHER"%string
  end.

Definition printStatus {W} (s : State W) : String.string :=
  String.append "Status: " (status_text (tfStatus s)).

(** The end of line [Serial.println()] sends: carriage return, line
    feed. *)
Definition println : String.string :=
  String.String (Ascii.ascii_of_nat 13)
    (String.String (Ascii.ascii_of_nat 10) String.EmptyString).

Section Diagnostics.
(** [Serial.print(b, HEX)], a function of the Arduino core. *)
Variable print_HEX : Z -> String.string.

(** One turn of the loop of [printDataArray]. *)
Definition print_byte (b : Z) : String.string :=
  String.append " "
    (String.append (if b <? 16 then "0" else String.EmptyString) (print_HEX b)).

(** [for (uint8_t i = 0; i < 6; i++)], with [n = 6 - i] turns left. *)
Fixpoint printDataArray_loop (n : nat) (i : Z) (d : list Z) : String.string :=
  match n with
  | O => String.EmptyString
  | S n' =>
      String.append (print_byte (nth (Z.to_nat i) d 0))
                    (printDataArray_loop n' (u8 (i + 1)) d)
  end.

Definition printDataArray {W} (s : State W) : String.string :=
  String.append (printStatus s)
    (String.append " Data:"
       (String.append (printDataArray_loop 6 0 (dataArray s)) println)).

End Diagnostics.

(** How the Arduino core prints a number [n] in a base
    ([Print::printNumber]): the digits of [n], the least significant
    found first, until the quotient is 0; digits from ten on are the
    capital letters.  [fuel] bounds the number of digits. *)
Definition digit_char (c : Z) : Ascii.ascii :=
  if c <? 10 then Ascii.ascii_of_nat (Z.to_nat c + 48)
  else Ascii.ascii_of_nat (Z.to_nat c + 55).

Fixpoint printNumber (fuel : nat) (n base : Z) (acc : String.string) : String.string :=
  match fuel with
  | O => acc
  | S fuel' =>
      let acc' := String.String (digit_char (n mod base)) acc in
      if n / base =? 0 then acc' else printNumber fuel' (n / base) base acc'
  end.

Definition arduino_HEX (b : Z) : String.string := printNumber 32 b 16 String.EmptyString.


(** A register file holding one measurement: distance 0x1234, flux 100,
    temperature 0x09C4. *)
Definition sample_device : RegFile :=
  mkRegFile
    (fun r =>
       if r =? 0 then 0x34 else if r =? 1 then 0x12 else
       if r =? 2 then 100 else if r =? 3 then 0 else
       if r =? 4 then 0xC4 else if r =? 5 then 0x09 else 0)
    0 [] [].

(** A driver on a scripted bus whose [dataArray] still holds the frame
    1, 2, 3, 4, 5, 6 of an earlier getData. *)
Definition on_script_after_frame (answers : list Answer) : State Scripted :=
  mkState TFL_READY 6 [1; 2; 3; 4; 5; 6] (mkScripted answers None) (fun _ => 0) [].


(** * Properties *)

Section Properties.
Context {W : Type} {wire : TwoWire W} {regs : RegisterMap}.

(** ** The register primitives, exchange by exchange *)

Lemma readReg_run nmbr addr (s : State W) :
  readReg nmbr addr s =
  (read_ok (bus_read nmbr addr (_Wire s)).1,
   after_read nmbr addr (bus_read nmbr addr (_Wire s)).1
              (bus_read nmbr addr (_Wire s)).2 s).
Proof.
  unfold readReg, bus_read, after_read, read_calls, bind, ret,
    Wire_beginTransmission, Wire_write, Wire_endTransmission,
    Wire_requestFrom, Wire_peek, Wire_read, bus_call,
    set_tfStatus, set_regReply; simpl.
  destruct (endTransmission true _) as [rc w1]; simpl.
  destruct (rc =? 0); simpl.
  - destruct (peek _) as [p w2]; simpl.
    destruct (p =? -1); simpl.
    + now rewrite <- !app_assoc.
    + destruct (read w2) as [v w3]; simpl. now rewrite <- !app_assoc.
  - now rewrite <- !app_assoc.
Qed.

Lemma writeReg_run nmbr addr data (s : State W) :
  writeReg nmbr addr data s =
  ((bus_write nmbr addr data (_Wire s)).1 =? 0,
   after_write nmbr addr data (bus_write nmbr addr data (_Wire s)).1
               (bus_write nmbr addr data (_Wire s)).2 s).
Proof.
  unfold writeReg, bus_write, after_write, write_calls, bind, ret,
    Wire_beginTransmission, Wire_write, Wire_endTransmission, bus_call,
    set_tfStatus; simpl.
  destruct (endTransmission true _) as [rc w1]; simpl.
  destruct (rc =? 0); simpl; now rewrite <- !app_assoc.
Qed.

(** ** The status slot under the primitives and their compositions *)

Create HintDb status.

Lemma command_like_ret_true : command_like (W := W) (ret true).
Proof. intros s; simpl; auto. Qed.

Lemma command_like_readReg nmbr addr : command_like (readReg nmbr addr).
Proof.
  intros s. rewrite readReg_run. simpl.
  split.
  - destruct (bus_read nmbr addr (_Wire s)) as [[rc| |v] w']; simpl; auto.
  - intros st. rewrite readReg_run. simpl.
    destruct (bus_read nmbr addr (_Wire s)) as [[rc| |v] w']; reflexivity.
Qed.

Lemma command_like_writeReg nmbr addr data : command_like (writeReg nmbr addr data).
Proof.
  intros s. rewrite writeReg_run. simpl.
  destruct (bus_write nmbr addr data (_Wire s)) as [rc w'] eqn:Hbus; simpl.
  split.
  - destruct (rc =? 0) eqn:E; simpl; rewrite ?E; auto.
  - intros st. rewrite writeReg_run. simpl. rewrite Hbus.
    unfold after_write, with_status; simpl.
    destruct (rc =? 0); reflexivity.
Qed.

(** [if (!c) return false; k] *)
Lemma command_like_guard (c k : M W bool) :
  command_like c -> command_like k ->
  command_like (ok <- c ;; if negb ok then ret false else k).
Proof.
  intros Hc Hk s. unfold bind.
  destruct (Hc s) as [Hs Hi].
  destruct (c s) as [r s1] eqn:E; simpl in *.
  destruct r; simpl.
  - destruct (Hk s1) as [Hs1 Hi1].
    split.
    + destruct (k s1).1; [congruence | assumption].
    + intros st. rewrite Hi. simpl. apply Hi1.
  - split; [assumption |].
    intros st. rewrite Hi. reflexivity.
Qed.

Lemma command_like_after_neutral {A} (g : M W A) (k : A -> M W bool) :
  status_neutral g -> (forall a, command_like (k a)) ->
  command_like (x <- g ;; k x).
Proof.
  intros Hg Hk s. unfold bind.
  destruct (Hg s) as [Hs Hi].
  destruct (g s) as [a s1] eqn:E; simpl in *.
  destruct (Hk a s1) as [Hs1 Hi1].
  split.
  - destruct (k a s1).1; [congruence | assumption].
  - intros st. rewrite Hi. apply Hi1.
Qed.

Lemma neutral_get_regReply : status_neutral (W := W) get_regReply.
Proof. intros s; split; reflexivity. Qed.

Lemma neutral_peek8 a : status_neutral (W := W) (peek8 a).
Proof. intros s; split; reflexivity. Qed.

Lemma neutral_poke8 a v : status_neutral (W := W) (poke8 a v).
Proof. intros s; split; reflexivity. Qed.

Lemma neutral_set_dataArray i v : status_neutral (W := W) (set_dataArray i v).
Proof. intros s; split; reflexivity. Qed.

#[local] Hint Resolve command_like_ret_true command_like_readReg
  command_like_writeReg command_like_guard command_like_after_neutral
  neutral_get_regReply neutral_peek8 neutral_poke8 neutral_set_dataArray
  : status.

Lemma command_like_getData_loop n : forall reg addr,
  command_like (getData_loop n reg addr).
Proof.
  induction n as [|n IH]; intros reg addr; simpl; auto 10 with status.
Qed.

Lemma command_like_Get_Prod_Code_loop n : forall i p_cod adr,
  command_like (Get_Prod_Code_loop n i p_cod adr).
Proof.
  induction n as [|n IH]; intros i p_cod adr; simpl; auto 10 with status.
Qed.

Lemma command_like_Get_Firmware_Version_loop n : forall i p_ver adr,
  command_like (Get_Firmware_Version_loop n i p_ver adr).
Proof.
  induction n as [|n IH]; intros i p_ver adr; simpl; auto 10 with status.
Qed.

Lemma command_like_Get_Time tim adr : command_like (Get_Time tim adr).
Proof. unfold Get_Time; auto 12 with status. Qed.

Lemma command_like_Get_Frame_Rate frm adr : command_like (Get_Frame_Rate frm adr).
Proof. unfold Get_Frame_Rate; auto 12 with status. Qed.

Lemma command_like_Set_Frame_Rate frm adr : command_like (Set_Frame_Rate frm adr).
Proof.
  unfold Set_Frame_Rate.
  apply command_like_after_neutral; [apply neutral_peek8 | intros b0].
  apply command_like_guard; [apply command_like_writeReg |].
  apply command_like_after_neutral; [apply neutral_peek8 | intros b1].
  apply command_like_guard; auto with status.
Qed.

(** Every operation but [getData] is one of these. *)
Lemma command_like_run op : is_getData op = false -> command_like (run op).
Proof.
  destruct op; simpl; intros Hop; try discriminate;
    try apply command_like_writeReg.
  - apply command_like_Get_Time.
  - apply command_like_Get_Prod_Code_loop.
  - apply command_like_Get_Firmware_Version_loop.
  - apply command_like_Set_Frame_Rate.
  - apply command_like_Get_Frame_Rate.
  - apply command_like_readReg.
Qed.

(** ** Arithmetic of the fixed-width conversions *)

Lemma u8_range x : 0 <= u8 x < 256.
Proof. unfold u8. apply Z.mod_pos_bound. lia. Qed.

Lemma u8_small x : 0 <= x < 256 -> u8 x = x.
Proof. intros H. unfold u8. now apply Z.mod_small. Qed.

Lemma u16_small x : 0 <= x < 65536 -> u16 x = x.
Proof. intros H. unfold u16. now apply Z.mod_small. Qed.

Lemma i16_u16 x : i16 (u16 x) = i16 x.
Proof.
  unfold i16, u16.
  rewrite Z.add_mod_idemp_l by lia. reflexivity.
Qed.

Lemma u16_i16 x : u16 (i16 x) = u16 x.
Proof.
  unfold i16, u16.
  rewrite Zminus_mod_idemp_l.
  f_equal. lia.
Qed.

Lemma i16_low x : 0 <= x < 32768 -> i16 x = x.
Proof. intros H. unfold i16. rewrite Z.mod_small by lia. lia. Qed.

Lemma i16_high x : 32768 <= x < 65536 -> i16 x = x - 65536.
Proof.
  intros H. unfold i16.
  replace (x + 32768) with (x - 32768 + 1 * 65536) by lia.
  rewrite Z.mod_add by lia. rewrite Z.mod_small by lia. lia.
Qed.

Lemma shiftl_8 x : Z.shiftl x 8 = x * 256.
Proof. now rewrite Z.shiftl_mul_pow2 by lia. Qed.

(** ** Caller memory *)

Lemma load8_store8_same m a v : load8 (store8 m a v) a = u8 v.
Proof.
  unfold load8, store8. rewrite Z.eqb_refl.
  unfold u8. apply Z.mod_mod. lia.
Qed.

Lemma load8_store8_other m a v b : b <> a -> load8 (store8 m a v) b = load8 m b.
Proof.
  intros H. unfold load8, store8.
  destruct (b =? a) eqn:E; [apply Z.eqb_eq in E; contradiction | reflexivity].
Qed.

Lemma load_u16_store16_same m a v : load_u16 (store16 m a v) a = u16 v.
Proof.
  unfold load_u16, store16.
  rewrite load8_store8_other by lia.
  rewrite !load8_store8_same.
  assert (H : 0 <= u16 v < 65536) by (unfold u16; apply Z.mod_pos_bound; lia).
  rewrite (u8_small (u16 v / 256)).
  - unfold u8. pose proof (Z.div_mod (u16 v) 256). lia.
  - split; [apply Z.div_pos; lia | apply Z.div_lt_upper_bound; lia].
Qed.

Lemma load_u16_store16_apart m a v b :
  apart a b -> load_u16 (store16 m a v) b = load_u16 m b.
Proof.
  intros H. unfold apart in H. unfold load_u16, store16.
  now rewrite !load8_store8_other by lia.
Qed.

Lemma load_i16_store16_same m a v : load_i16 (store16 m a v) a = i16 v.
Proof. unfold load_i16. now rewrite load_u16_store16_same, i16_u16. Qed.

Lemma load_i16_store16_apart m a v b :
  apart a b -> load_i16 (store16 m a v) b = load_i16 m b.
Proof. intros H. unfold load_i16. now rewrite load_u16_store16_apart. Qed.

Lemma store16_elsewhere m a v x : x <> a -> x <> a + 1 -> store16 m a v x = m x.
Proof.
  intros H1 H2. unfold store16, store8.
  destruct (x =? a + 1) eqn:E1; [apply Z.eqb_eq in E1; contradiction |].
  destruct (x =? a) eqn:E2; [apply Z.eqb_eq in E2; contradiction | reflexivity].
Qed.

Lemma store_bytes_below vs : forall m a x, x < a -> store_bytes m a vs x = m x.
Proof.
  induction vs as [|v vs IH]; intros m a x H; simpl; [reflexivity |].
  rewrite IH by lia. unfold store8.
  destruct (x =? a) eqn:E; [apply Z.eqb_eq in E; lia | reflexivity].
Qed.

Lemma store_bytes_above vs : forall m a x,
  a + Z.of_nat (length vs) <= x -> store_bytes m a vs x = m x.
Proof.
  induction vs as [|v vs IH]; intros m a x H; simpl in *; [reflexivity |].
  rewrite IH by lia. unfold store8.
  destruct (x =? a) eqn:E; [apply Z.eqb_eq in E; lia | reflexivity].
Qed.

Lemma store_bytes_at vs : forall m a (j : nat) v,
  Forall (fun b => 0 <= b < 256) vs ->
  vs !! j = Some v -> store_bytes m a vs (a + Z.of_nat j) = v.
Proof.
  induction vs as [|v0 vs IH]; intros m a j v Hb Hj; [discriminate |].
  inversion Hb as [|? ? Hv0 Hvs]; subst.
  destruct j as [|j]; simpl in Hj; cbn [store_bytes].
  - injection Hj as ->.
    rewrite store_bytes_below by lia.
    unfold store8.
    replace (a + Z.of_nat 0 =? a) with true by (symmetry; apply Z.eqb_eq; lia).
    now apply u8_small.
  - replace (a + Z.of_nat (S j)) with (a + 1 + Z.of_nat j) by lia.
    now apply IH.
Qed.

(** ** Sequences of register reads *)

Lemma bus_read_byte nmbr addr (w : W) v w' :
  bus_read nmbr addr w = (ReadByte v, w') -> 0 <= v < 256.
Proof.
  unfold bus_read.
  destruct (endTransmission true _) as [rc w1].
  destruct (negb (rc =? 0)); [discriminate |].
  destruct (peek _) as [p w2].
  destruct (p =? -1); [discriminate |].
  destruct (read w2) as [x w3].
  intros H. injection H as <- _. apply u8_range.
Qed.

Lemma bus_reads_bytes n : forall reg addr (w : W) vs w',
  bus_reads n reg addr w = Some (vs, w') ->
  length vs = n /\ Forall (fun b => 0 <= b < 256) vs.
Proof.
  induction n as [|n IH]; intros reg addr w vs w' H; simpl in H.
  - injection H as <- _. split; [reflexivity | constructor].
  - destruct (bus_read (u8 reg) addr w) as [[rc| |v] w1] eqn:E; try discriminate.
    destruct (bus_reads n (reg + 1) addr w1) as [[vs' w2]|] eqn:E'; try discriminate.
    injection H as <- _.
    destruct (IH _ _ _ _ _ E') as [Hlen Hall].
    split; [simpl; congruence |].
    constructor; [exact (bus_read_byte _ _ _ _ _ E) | exact Hall].
Qed.

Lemma state_eta (s : State W) :
  mkState (tfStatus s) (regReply s) (dataArray s) (_Wire s) (ram s) (bus_log s) = s.
Proof. now destruct s. Qed.

(** The first [k] iterations of the loop of [getData], when each of
    their reads delivers a byte. *)
Lemma getData_loop_prefix k : forall n reg addr (s : State W) vs w1,
  0 <= reg -> reg + Z.of_nat (k + n) < 256 ->
  bus_reads k reg addr (_Wire s) = Some (vs, w1) ->
  getData_loop (k + n) reg addr s =
  getData_loop n (reg + Z.of_nat k) addr (after_data_reads k reg addr vs w1 s).
Proof.
  induction k as [|k IH]; intros n reg addr s vs w1 Hreg Hmax H; simpl in H.
  - injection H as <- <-.
    unfold after_data_reads; simpl.
    now rewrite Z.add_0_r, app_nil_r, state_eta.
  - rewrite u8_small in H by lia.
    destruct (bus_read reg addr (_Wire s)) as [[rc| |v] w'] eqn:E; try discriminate.
    destruct (bus_reads k (reg + 1) addr w') as [[vs' w2]|] eqn:E'; try discriminate.
    injection H as <- <-.
    change (S k + n)%nat with (S (k + n)). cbn [getData_loop].
    unfold bind at 1. rewrite readReg_run, E. cbn [fst snd read_ok negb].
    unfold bind, get_regReply, set_dataArray. cbn [fst snd].
    rewrite (u8_small (reg + 1)) by lia.
    rewrite (IH n (reg + 1) addr _ vs' w2) by (simpl; (lia || assumption)).
    replace (reg + 1 + Z.of_nat k) with (reg + Z.of_nat (S k)) by lia.
    f_equal.
    unfold after_data_reads, after_read, read_calls; simpl.
    rewrite (u8_small reg) by lia.
    now rewrite <- !app_assoc.
Qed.

(** The first [k] iterations of the loop of [Get_Prod_Code], when each
    of their reads delivers a byte. *)
Lemma Get_Prod_Code_loop_prefix k : forall n i p_cod adr (s : State W) vs w1,
  0 <= i -> 0x10 + i + Z.of_nat (k + n) < 256 ->
  bus_reads k (0x10 + i) adr (_Wire s) = Some (vs, w1) ->
  Get_Prod_Code_loop (k + n) i p_cod adr s =
  Get_Prod_Code_loop n (i + Z.of_nat k) p_cod adr
                     (after_code_reads k i p_cod adr vs w1 s).
Proof.
  induction k as [|k IH]; intros n i p_cod adr s vs w1 Hi Hmax H; simpl in H.
  - injection H as <- <-.
    unfold after_code_reads; simpl.
    now rewrite Z.add_0_r, app_nil_r, state_eta.
  - destruct (bus_read (u8 (16 + i)) adr (_Wire s)) as [[rc| |v] w'] eqn:E;
      try discriminate.
    destruct (bus_reads k (16 + i + 1) adr w') as [[vs' w2]|] eqn:E'; try discriminate.
    injection H as <- <-.
    change (S k + n)%nat with (S (k + n)). cbn [Get_Prod_Code_loop].
    unfold bind at 1. rewrite readReg_run, E. cbn [fst snd read_ok negb].
    unfold bind, get_regReply, poke8. cbn [fst snd].
    rewrite (u8_small (i + 1)) by lia.
    replace (16 + i + 1) with (16 + (i + 1)) in E' by lia.
    rewrite (IH n (i + 1) p_cod adr _ vs' w2) by (simpl; (lia || assumption)).
    replace (i + 1 + Z.of_nat k) with (i + Z.of_nat (S k)) by lia.
    f_equal.
    unfold after_code_reads, after_read, read_calls; simpl.
    replace (p_cod + (i + 1)) with (p_cod + i + 1) by lia.
    replace (16 + (i + 1)) with (16 + i + 1) by lia.
    now rewrite <- !app_assoc.
Qed.

(** ** Runs of [getData] *)

(** All six reads deliver a byte. *)
Lemma getData_run dist flux temp addr (s : State W) b0 b1 b2 b3 b4 b5 w' :
  length (dataArray s) = 6%nat ->
  bus_reads 6 TFL_DIST_LO addr (_Wire s) = Some ([b0; b1; b2; b3; b4; b5], w') ->
  getData dist flux temp addr s =
  (StatusCode_eqb
     (flux_status (load_i16 (measured (ram s) dist flux temp b0 b1 b2 b3 b4 b5) flux))
     TFL_READY,
   mkState
     (flux_status (load_i16 (measured (ram s) dist flux temp b0 b1 b2 b3 b4 b5) flux))
     b5 [b0; b1; b2; b3; b4; b5] w'
     (measured (ram s) dist flux temp b0 b1 b2 b3 b4 b5)
     (bus_log s ++ reads_calls 6 TFL_DIST_LO addr)).
Proof.
  intros Hlen H.
  unfold getData. unfold bind at 1. unfold set_tfStatus at 1.
  unfold bind at 1.
  change (Z.to_nat (TFL_TEMP_HI + 1 - TFL_DIST_LO)) with (6 + 0)%nat.
  rewrite (getData_loop_prefix 6 0 TFL_DIST_LO addr _ _ w')
    by first [exact H | unfold TFL_DIST_LO; lia].
  destruct (dataArray s) as [|a0 [|a1 [|a2 [|a3 [|a4 [|a5 [|a6 l]]]]]]] eqn:Hd;
    try discriminate.
  unfold after_data_reads; simpl. rewrite ?Hd. simpl.
  unfold bind, get_dataArray, poke16, peek_i16, set_tfStatus, ret, measured,
    flux_status; simpl.
  destruct (load_i16 _ flux <? i16 100); [reflexivity |].
  destruct (load_i16 _ flux =? i16 65535); reflexivity.
Qed.

(** The reads of the first [k] registers deliver a byte and the next
    one does not. *)
Lemma getData_fails (k : nat) dist flux temp addr (s : State W) vs w1 r w2 :
  (k < 6)%nat ->
  bus_reads k TFL_DIST_LO addr (_Wire s) = Some (vs, w1) ->
  bus_read (TFL_DIST_LO + Z.of_nat k) addr w1 = (r, w2) ->
  read_ok r = false ->
  getData dist flux temp addr s =
  (false,
   after_read (TFL_DIST_LO + Z.of_nat k) addr r w2
     (after_data_reads k TFL_DIST_LO addr vs w1 (with_status TFL_READY s))).
Proof.
  intros Hk H Hr Hfail.
  unfold getData. unfold bind at 1. unfold set_tfStatus at 1.
  unfold bind at 1.
  change (Z.to_nat (TFL_TEMP_HI + 1 - TFL_DIST_LO)) with 6%nat.
  replace 6%nat with (k + S (5 - k))%nat by lia.
  rewrite (getData_loop_prefix k (S (5 - k)) TFL_DIST_LO addr _ vs w1)
    by first [exact H | unfold TFL_DIST_LO; lia].
  cbn [getData_loop]. unfold bind at 1.
  rewrite readReg_run.
  change (_Wire (after_data_reads k TFL_DIST_LO addr vs w1
                   (mkState TFL_READY (regReply s) (dataArray s) (_Wire s) (ram s)
                            (bus_log s)))) with w1.
  rewrite Hr. cbn [fst snd]. rewrite Hfail. reflexivity.
Qed.

(** ** The status slot after an operation *)

Lemma getData_ignores_status dist flux temp addr st (s : State W) :
  getData dist flux temp addr (with_status st s) = getData dist flux temp addr s.
Proof. reflexivity. Qed.

Lemma getData_status dist flux temp addr (s : State W) r s' :
  getData dist flux temp addr s = (r, s') ->
  if r
  then tfStatus s' = TFL_READY
  else tfStatus s' = TFL_I2CWRITE \/ tfStatus s' = TFL_I2CREAD \/
       tfStatus s' = TFL_WEAK \/ tfStatus s' = TFL_STRONG.
Proof.
  unfold getData. unfold bind at 1. unfold set_tfStatus at 1.
  unfold bind at 1.
  match goal with |- context [getData_loop ?n ?r ?a ?s0] =>
    destruct (command_like_getData_loop n r a s0) as [H _];
    destruct (getData_loop n r a s0) as [ok s1]
  end.
  destruct ok; cbn [fst snd negb] in *.
  - unfold bind, get_dataArray, poke16, peek_i16, set_tfStatus, ret; cbn [fst snd].
    destruct (load_i16 _ flux <? i16 100).
    + intros E. injection E as <- <-. simpl. auto.
    + destruct (load_i16 _ flux =? i16 65535);
        intros E; injection E as <- <-; simpl; auto 6.
  - unfold ret. intros E. injection E as <- <-. simpl in H. tauto.
Qed.

(** C1 (amended).  After any operation of the driver returns failure,
    the status slot holds an error code written during that call,
    whatever the slot held before: I2CWriteError or I2CReadError, and
    for getData also WeakSignal or StrongSignal.  After getData returns
    success the slot holds Ready.  After a register primitive or an
    explicit command returns success the slot holds what it held before
    the call.  The result of a call never depends on what the slot held
    before. *)
Theorem status_after_operation (op : Operation) (s : State W) :
  let r := (run op s).1 in
  let s' := (run op s).2 in
  (r = true -> tfStatus s' = if is_getData op then TFL_READY else tfStatus s) /\
  (r = false ->
     tfStatus s' = TFL_I2CWRITE \/ tfStatus s' = TFL_I2CREAD \/
     is_getData op = true /\ (tfStatus s' = TFL_WEAK \/ tfStatus s' = TFL_STRONG)) /\
  (forall st,
     (run op (with_status st s)).1 = r /\
     (r = false -> tfStatus (run op (with_status st s)).2 = tfStatus s')).
Proof.
  cbv zeta.
  destruct (is_getData op) eqn:Hop.
  - assert (Hrun : exists dist flux temp addr,
               run op = getData dist flux temp addr).
    { destruct op; try discriminate; simpl; unfold getData_short; eauto. }
    destruct Hrun as (dist & flux & temp & addr & ->).
    pose proof (getData_status dist flux temp addr s _ _ (surjective_pairing _)) as H.
    repeat split; try (rewrite getData_ignores_status; reflexivity).
    + intros Hr. now rewrite Hr in H.
    + intros Hr. rewrite Hr in H. tauto.
  - destruct (command_like_run op Hop s) as [H Hi].
    repeat split.
    + intros Hr. now rewrite Hr in H.
    + intros Hr. rewrite Hr in H. tauto.
    + rewrite Hi. reflexivity.
    + intros Hr. rewrite Hi. simpl. now rewrite Hr.
Qed.

(** C10.  A call of readReg or of writeReg that returns success leaves
    the status slot unchanged, and so does every explicit command built
    from them (every operation but getData) when it returns success. *)
Theorem success_leaves_status (op : Operation) (s : State W) :
  is_getData op = false ->
  (run op s).1 = true ->
  tfStatus (run op s).2 = tfStatus s.
Proof.
  intros Hop Hr.
  destruct (command_like_run op Hop s) as [H _].
  now rewrite Hr in H.
Qed.

(** X1.  getData never leaves StrongSignal in the status slot, whatever the
    bus answers and wherever its three references point: the test for
    saturation (lines 81-85) comes after the test [flux < 100], which
    a flux of -1 passes. *)
Theorem getData_never_strong dist flux temp addr (s : State W) :
  tfStatus (getData dist flux temp addr s).2 <> TFL_STRONG.
Proof.
  destruct (getData dist flux temp addr s) as [r s'] eqn:Hrun.
  cbn [snd]. revert Hrun.
  unfold getData. unfold bind at 1. unfold set_tfStatus at 1.
  unfold bind at 1.
  match goal with |- context [getData_loop ?n ?r ?a ?s0] =>
    destruct (command_like_getData_loop n r a s0) as [H _];
    destruct (getData_loop n r a s0) as [ok s1]
  end.
  destruct ok; cbn [fst snd negb] in *.
  - unfold bind, get_dataArray, poke16, peek_i16, set_tfStatus, ret; cbn [fst snd].
    change (i16 100) with 100. change (i16 65535) with (-1).
    destruct (load_i16 _ flux <? 100) eqn:E1.
    + intros E. injection E as <- <-. discriminate.
    + cbv beta. cbn [tfStatus regReply dataArray _Wire ram bus_log] in *.
      match goal with |- context [?f =? -1] => destruct (f =? -1) eqn:E2 end;
        intros E; injection E as <- <-; simpl; [| discriminate].
      apply Z.ltb_ge in E1. apply Z.eqb_eq in E2. lia.
  - unfold ret. intros E. injection E as <- <-.
    destruct H as [-> | ->]; discriminate.
Qed.


(** ** The assembled fields and the validity policy *)

Lemma apart_sym a b : apart a b -> apart b a.
Proof. unfold apart. lia. Qed.

Lemma le16_value lo hi :
  0 <= lo < 256 -> 0 <= hi < 256 ->
  le16 lo hi = if hi <? 128 then lo + hi * 256 else lo + hi * 256 - 65536.
Proof.
  intros Hlo Hhi. unfold le16. rewrite shiftl_8.
  destruct (hi <? 128) eqn:E.
  - apply Z.ltb_lt in E. apply i16_low. lia.
  - apply Z.ltb_ge in E. apply i16_high. lia.
Qed.

Lemma le16_pattern lo hi :
  0 <= lo < 256 -> 0 <= hi < 256 -> u16 (le16 lo hi) = lo + hi * 256.
Proof.
  intros Hlo Hhi. unfold le16. rewrite u16_i16, shiftl_8.
  apply u16_small. lia.
Qed.

Lemma measured_dist m dist flux temp b0 b1 b2 b3 b4 b5 :
  apart dist flux -> apart dist temp ->
  load_i16 (measured m dist flux temp b0 b1 b2 b3 b4 b5) dist = le16 b0 b1.
Proof.
  intros Hf Ht. unfold measured.
  rewrite !load_i16_store16_apart by now apply apart_sym.
  apply load_i16_store16_same.
Qed.

Lemma measured_flux m dist flux temp b0 b1 b2 b3 b4 b5 :
  apart flux temp ->
  load_i16 (measured m dist flux temp b0 b1 b2 b3 b4 b5) flux = le16 b2 b3.
Proof.
  intros Ht. unfold measured.
  rewrite load_i16_store16_apart by now apply apart_sym.
  apply load_i16_store16_same.
Qed.

Lemma measured_temp m dist flux temp b0 b1 b2 b3 b4 b5 :
  load_i16 (measured m dist flux temp b0 b1 b2 b3 b4 b5) temp = le16 b4 b5.
Proof. unfold measured. apply load_i16_store16_same. Qed.

Lemma flux_status_weak f : f < 100 -> flux_status f = TFL_WEAK.
Proof.
  intros H. unfold flux_status. change (i16 100) with 100.
  now apply Z.ltb_lt in H as ->.
Qed.

Lemma flux_status_ready f : 100 <= f -> flux_status f = TFL_READY.
Proof.
  intros H. unfold flux_status.
  change (i16 100) with 100. change (i16 65535) with (-1).
  rewrite (proj2 (Z.ltb_ge f 100) H).
  destruct (f =? -1) eqn:E; [apply Z.eqb_eq in E; lia | reflexivity].
Qed.

(** The branch that sets StrongSignal is never taken: a flux the
    first test lets through is at least 100. *)
Lemma flux_status_not_strong f : flux_status f <> TFL_STRONG.
Proof.
  destruct (Z.lt_ge_cases f 100) as [H | H].
  - now rewrite flux_status_weak.
  - now rewrite flux_status_ready.
Qed.

(** C2 (what the code does).  When all six reads succeed and the flux
    bytes are 0xFF and 0xFF, getData reports failure, and the status
    slot holds WeakSignal, not StrongSignal: flux is then -1 as an
    [int16_t], and the test [flux < 100] comes first. *)
Theorem saturated_flux_reported_weak dist flux temp addr (s : State W)
    b0 b1 b4 b5 w' :
  length (dataArray s) = 6%nat ->
  bus_reads 6 TFL_DIST_LO addr (_Wire s) = Some ([b0; b1; 0xFF; 0xFF; b4; b5], w') ->
  apart flux temp ->
  (getData dist flux temp addr s).1 = false /\
  tfStatus (getData dist flux temp addr s).2 = TFL_WEAK /\
  tfStatus (getData dist flux temp addr s).2 <> TFL_STRONG.
Proof.
  intros Hlen H Hft.
  rewrite (getData_run _ _ _ _ _ _ _ _ _ _ _ _ Hlen H).
  cbn [fst snd tfStatus]. rewrite measured_flux by assumption.
  rewrite flux_status_weak by (vm_compute; reflexivity).
  repeat split; discriminate.
Qed.

(** C3 (what the code does).  Take a run of getData in which [dataArray]
    has its six elements, all six reads succeed, the caller's flux and
    temperature variables share no byte, and the flux bytes b2, b3 give
    a 16-bit pattern f = b2 + b3 * 256 with 100 <= f < 0xFFFF.  Then
    getData reports success with Ready when f <= 0x7FFF, and reports
    failure with WeakSignal when 0x8000 <= f: flux is an [int16_t], a
    pattern with the high bit set is a negative flux, and the signed
    test [flux < 100] takes it for a weak signal.  This is the defect of
    C2, seen on the patterns 0x8000 to 0xFFFE. *)
Theorem flux_pattern_outcome dist flux temp addr (s : State W)
    b0 b1 b2 b3 b4 b5 w' :
  length (dataArray s) = 6%nat ->
  bus_reads 6 TFL_DIST_LO addr (_Wire s) = Some ([b0; b1; b2; b3; b4; b5], w') ->
  apart flux temp ->
  100 <= b2 + b3 * 256 < 0xFFFF ->
  (b2 + b3 * 256 <= 0x7FFF ->
   (getData dist flux temp addr s).1 = true /\
   tfStatus (getData dist flux temp addr s).2 = TFL_READY) /\
  (0x8000 <= b2 + b3 * 256 ->
   (getData dist flux temp addr s).1 = false /\
   tfStatus (getData dist flux temp addr s).2 = TFL_WEAK).
Proof.
  intros Hlen H Hft Hf.
  rewrite (getData_run _ _ _ _ _ _ _ _ _ _ _ _ Hlen H).
  cbn [fst snd tfStatus]. rewrite measured_flux by assumption.
  unfold le16. rewrite shiftl_8. split; intros Hhalf.
  - rewrite flux_status_ready; [split; reflexivity |].
    rewrite i16_low; lia.
  - rewrite flux_status_weak; [split; reflexivity |].
    rewrite i16_high; lia.
Qed.

(** C4 (amended).  Take a run of getData in which [dataArray] has its
    six elements, all six reads succeed, and the caller's distance, flux
    and temperature variables are three objects no two of which share a
    byte.  When the assembled flux, as a signed 16-bit integer, is below
    100, getData reports failure and the status slot holds WeakSignal,
    whatever the distance and temperature bytes are; the caller's three
    variables hold the assembled values. *)
Theorem weak_flux_fails dist flux temp addr (s : State W)
    b0 b1 b2 b3 b4 b5 w' :
  length (dataArray s) = 6%nat ->
  bus_reads 6 TFL_DIST_LO addr (_Wire s) = Some ([b0; b1; b2; b3; b4; b5], w') ->
  apart dist flux -> apart dist temp -> apart flux temp ->
  le16 b2 b3 < 100 ->
  (getData dist flux temp addr s).1 = false /\
  tfStatus (getData dist flux temp addr s).2 = TFL_WEAK /\
  load_i16 (ram (getData dist flux temp addr s).2) dist = le16 b0 b1 /\
  load_i16 (ram (getData dist flux temp addr s).2) flux = le16 b2 b3 /\
  load_i16 (ram (getData dist flux temp addr s).2) temp = le16 b4 b5.
Proof.
  intros Hlen H Hdf Hdt Hft Hf.
  rewrite (getData_run _ _ _ _ _ _ _ _ _ _ _ _ Hlen H).
  cbn [fst snd tfStatus ram].
  rewrite measured_dist, measured_flux, measured_temp by assumption.
  rewrite flux_status_weak by assumption.
  repeat split; reflexivity.
Qed.

(** C9 (amended).  The field assembly of getData is little-endian.
    Take a run in which [dataArray] has its six elements, all six reads
    succeed, and the caller's distance, flux and temperature variables
    are three objects no two of which share a byte.  For the bytes
    (b0, b1) read from a low/high register pair, the caller's field has
    the 16-bit pattern b0 + b1 * 256; as the field is an [int16_t], its
    value is b0 + b1 * 256 when b1 < 0x80 and b0 + b1 * 256 - 65536
    otherwise.  Bytes 0x34, 0x12 assemble to 0x1234. *)
Theorem fields_little_endian dist flux temp addr (s : State W)
    b0 b1 b2 b3 b4 b5 w' :
  length (dataArray s) = 6%nat ->
  bus_reads 6 TFL_DIST_LO addr (_Wire s) = Some ([b0; b1; b2; b3; b4; b5], w') ->
  apart dist flux -> apart dist temp -> apart flux temp ->
  little_endian_field (load_i16 (ram (getData dist flux temp addr s).2) dist) b0 b1 /\
  little_endian_field (load_i16 (ram (getData dist flux temp addr s).2) flux) b2 b3 /\
  little_endian_field (load_i16 (ram (getData dist flux temp addr s).2) temp) b4 b5.
Proof.
  intros Hlen H Hdf Hdt Hft.
  rewrite (getData_run _ _ _ _ _ _ _ _ _ _ _ _ Hlen H).
  cbn [snd ram].
  rewrite measured_dist, measured_flux, measured_temp by assumption.
  destruct (bus_reads_bytes _ _ _ _ _ _ H) as [_ Hb].
  repeat match goal with
         | Hb : Forall _ (_ :: _) |- _ =>
             let Hx := fresh "Hbyte" in
             inversion Hb as [|? ? Hx ?]; subst; clear Hb
         end.
  unfold little_endian_field.
  repeat split; first [now apply le16_pattern | now apply le16_value].
Qed.

(** ** Register sequences that stop at a failing read *)

Lemma exchanges_app l1 l2 : exchanges (l1 ++ l2) = (exchanges l1 + exchanges l2)%nat.
Proof.
  induction l1 as [|c l1 IH]; simpl; [reflexivity |].
  destruct c; simpl; now rewrite IH.
Qed.

Lemma exchanges_reads_calls n : forall reg addr, exchanges (reads_calls n reg addr) = n.
Proof.
  induction n as [|n IH]; intros reg addr; simpl; [reflexivity |].
  now rewrite IH.
Qed.

Lemma exchanges_read_calls nmbr addr r : exchanges (read_calls nmbr addr r) = 1%nat.
Proof. destruct r; reflexivity. Qed.

Lemma exchanges_prefix_and_read n reg addr nmbr r :
  exchanges (reads_calls n reg addr ++ read_calls nmbr addr r) = S n.
Proof.
  rewrite exchanges_app, exchanges_reads_calls, exchanges_read_calls. lia.
Qed.

Lemma readReg_status_on_failure nmbr addr (s0 : State W) r w2 :
  bus_read nmbr addr (_Wire s0) = (r, w2) ->
  read_ok r = false ->
  tfStatus (readReg nmbr addr s0).2 = read_status r TFL_READY.
Proof.
  intros H Hr. rewrite readReg_run, H. simpl.
  destruct r; first [reflexivity | discriminate Hr].
Qed.

(** C5.  When a read of the six-register sequence of getData fails (the
    read of register k, after k reads that delivered a byte), getData
    returns failure at once: the bus saw k + 1 exchanges and none after
    the failing one, the status slot holds what the failing readReg
    set, and the caller's memory, so its distance, flux and temperature
    variables, is as it was. *)
Theorem getData_read_failure (k : nat) dist flux temp addr (s : State W)
    vs w1 r w2 :
  (k < 6)%nat ->
  bus_reads k TFL_DIST_LO addr (_Wire s) = Some (vs, w1) ->
  bus_read (TFL_DIST_LO + Z.of_nat k) addr w1 = (r, w2) ->
  read_ok r = false ->
  let out := getData dist flux temp addr s in
  let added := reads_calls k TFL_DIST_LO addr ++
               read_calls (TFL_DIST_LO + Z.of_nat k) addr r in
  out.1 = false /\
  bus_log out.2 = bus_log s ++ added /\
  exchanges added = S k /\
  _Wire out.2 = w2 /\
  tfStatus out.2 = read_status r TFL_READY /\
  (forall s0 : State W, _Wire s0 = w1 ->
     tfStatus out.2 = tfStatus (readReg (TFL_DIST_LO + Z.of_nat k) addr s0).2) /\
  ram out.2 = ram s.
Proof.
  intros Hk H Hr Hfail. cbv zeta.
  rewrite (getData_fails k _ _ _ _ _ _ _ _ _ Hk H Hr Hfail).
  cbn [fst snd]. unfold after_read, after_data_reads, with_status.
  cbn [bus_log _Wire tfStatus ram].
  repeat split.
  - now rewrite app_assoc.
  - apply exchanges_prefix_and_read.
  - intros s0 Hs0. subst w1.
    now rewrite (readReg_status_on_failure _ _ _ _ _ Hr Hfail).
Qed.

(** The first [i] reads of [Get_Prod_Code] deliver a byte and the next
    one does not. *)
Lemma Get_Prod_Code_fails (i : nat) p_cod adr (s : State W) vs w1 r w2 :
  (i < 14)%nat ->
  bus_reads i 0x10 adr (_Wire s) = Some (vs, w1) ->
  bus_read (0x10 + Z.of_nat i) adr w1 = (r, w2) ->
  read_ok r = false ->
  Get_Prod_Code p_cod adr s =
  (false,
   after_read (0x10 + Z.of_nat i) adr r w2 (after_code_reads i 0 p_cod adr vs w1 s)).
Proof.
  intros Hi H Hr Hfail.
  unfold Get_Prod_Code.
  replace 14%nat with (i + S (13 - i))%nat by lia.
  rewrite (Get_Prod_Code_loop_prefix i (S (13 - i)) 0 p_cod adr s vs w1)
    by first [exact H | lia].
  cbn [Get_Prod_Code_loop]. unfold bind at 1.
  rewrite readReg_run.
  change (_Wire (after_code_reads i 0 p_cod adr vs w1 s)) with w1.
  rewrite (u8_small (16 + (0 + Z.of_nat i))) by lia.
  replace (16 + (0 + Z.of_nat i)) with (16 + Z.of_nat i) by lia.
  rewrite Hr. cbn [fst snd]. rewrite Hfail. reflexivity.
Qed.

(** C6.  When the read of step k = i + 1 of the 14 reads of
    Get_Prod_Code finds no byte available, after i reads that delivered
    theirs, the operation returns failure with the status slot at
    I2CReadError; the bus saw k exchanges, so the remaining 14 - k reads
    were not attempted; and the buffer holds the i bytes received at
    its indices below i = k - 1, every other byte of caller memory,
    from index k - 1 of the buffer on, being as it was. *)
Theorem Get_Prod_Code_read_failure (i : nat) p_cod adr (s : State W) vs w1 w2 :
  (i < 14)%nat ->
  bus_reads i 0x10 adr (_Wire s) = Some (vs, w1) ->
  bus_read (0x10 + Z.of_nat i) adr w1 = (ReadEmpty, w2) ->
  let out := Get_Prod_Code p_cod adr s in
  let added := reads_calls i 0x10 adr ++
               read_calls (0x10 + Z.of_nat i) adr ReadEmpty in
  out.1 = false /\
  tfStatus out.2 = TFL_I2CREAD /\
  bus_log out.2 = bus_log s ++ added /\
  exchanges added = S i /\
  _Wire out.2 = w2 /\
  (forall x, x < p_cod \/ p_cod + Z.of_nat i <= x -> ram out.2 x = ram s x) /\
  (forall (j : nat) v, vs !! j = Some v -> ram out.2 (p_cod + Z.of_nat j) = v).
Proof.
  intros Hi H Hr. cbv zeta.
  destruct (bus_reads_bytes _ _ _ _ _ _ H) as [Hlen Hbytes].
  rewrite (Get_Prod_Code_fails i p_cod adr s vs w1 _ w2 Hi H Hr eq_refl).
  cbn [fst snd]. unfold after_read, after_code_reads.
  cbn [bus_log _Wire tfStatus ram read_status].
  rewrite (Z.add_0_r p_cod). change (16 + 0) with 16.
  repeat split.
  - now rewrite app_assoc.
  - apply exchanges_prefix_and_read.
  - intros x [Hx | Hx].
    + now apply store_bytes_below.
    + apply store_bytes_above. lia.
  - intros j v Hj. now apply store_bytes_at.
Qed.

(** ** The two writes of Set_Frame_Rate *)

Lemma load_u16_bytes (m : Ram) a :
  load8 m a = load_u16 m a mod 256 /\ load8 m (a + 1) = load_u16 m a / 256.
Proof.
  unfold load_u16.
  pose proof (u8_range (m a)) as H0. pose proof (u8_range (m (a + 1))) as H1.
  unfold load8.
  set (lo := u8 (m a)) in *. set (hi := u8 (m (a + 1))) in *.
  replace (lo + 256 * hi) with (lo + hi * 256) by lia.
  split.
  - rewrite Z.mod_add by lia. now rewrite Z.mod_small.
  - rewrite Z.div_add by lia. rewrite Z.div_small by lia. lia.
Qed.

(** C7.  Set_Frame_Rate writes the 16-bit rate x as two register writes,
    the low byte x mod 256 to the low register first and the high byte
    x / 256 to the high register second.  When the low-byte write fails
    the operation returns failure and the bus saw that one exchange
    only: the high-byte write is not attempted. *)
Theorem Set_Frame_Rate_low_byte_first frm adr (s : State W) :
  let x := load_u16 (ram s) frm in
  let low := bus_write (u8 TFL_FPS_LO) adr (x mod 256) (_Wire s) in
  let high := bus_write (u8 TFL_FPS_HI) adr (x / 256) low.2 in
  let out := Set_Frame_Rate frm adr s in
  (low.1 <> 0 ->
     out.1 = false /\
     bus_log out.2 = bus_log s ++ write_calls (u8 TFL_FPS_LO) adr (x mod 256) /\
     exchanges (write_calls (u8 TFL_FPS_LO) adr (x mod 256)) = 1%nat /\
     _Wire out.2 = low.2) /\
  (low.1 = 0 ->
     out.1 = (high.1 =? 0) /\
     bus_log out.2 = bus_log s ++ write_calls (u8 TFL_FPS_LO) adr (x mod 256) ++
                                  write_calls (u8 TFL_FPS_HI) adr (x / 256) /\
     _Wire out.2 = high.2).
Proof.
  cbv zeta.
  destruct (load_u16_bytes (ram s) frm) as [Hlo Hhi].
  unfold Set_Frame_Rate, bind, peek8. cbn [fst snd].
  rewrite Z.add_0_r, !writeReg_run. cbn [fst snd].
  rewrite Hlo.
  destruct (bus_write (u8 TFL_FPS_LO) adr (load_u16 (ram s) frm mod 256) (_Wire s))
    as [rc w1] eqn:E.
  cbn [fst snd].
  split; intros Hrc.
  - apply Z.eqb_neq in Hrc. rewrite Hrc. simpl. auto.
  - subst rc. cbn [Z.eqb negb].
    rewrite writeReg_run. cbn [fst snd after_write ram _Wire bus_log Z.eqb].
    rewrite Hhi.
    destruct (bus_write (u8 TFL_FPS_HI) adr (load_u16 (ram s) frm / 256) w1)
      as [rc2 w2].
    cbn [fst snd].
    destruct (rc2 =? 0); simpl; rewrite <- app_assoc; auto.
Qed.

(** ** Enable and disable *)

(** X2.  Set_Enable writes 1 and Set_Disable writes 0, both to the register
    TFL_DISABLE, each in one exchange (lines 168-177, and the note of
    version 0.2.0 in the file header). *)
Theorem enable_disable_writes adr (s : State W) :
  bus_log (Set_Enable adr s).2 = bus_log s ++ write_calls (u8 TFL_DISABLE) adr 1 /\
  bus_log (Set_Disable adr s).2 = bus_log s ++ write_calls (u8 TFL_DISABLE) adr 0.
Proof.
  unfold Set_Enable, Set_Disable. rewrite !writeReg_run. split; reflexivity.
Qed.


End Properties.

(** ** Frame rate: write, then read back *)

Section RoundTrip.
Context {W : Type} {wire : TwoWire W} {regs : RegisterMap}.
Context {echo : EchoRegisters W}.

Lemma Set_Frame_Rate_success frm adr (s s1 : State W) :
  Set_Frame_Rate frm adr s = (true, s1) ->
  exists w1,
    bus_write (u8 TFL_FPS_LO) adr (load8 (ram s) frm) (_Wire s) = (0, w1) /\
    bus_write (u8 TFL_FPS_HI) adr (load8 (ram s) (frm + 1)) w1 = (0, _Wire s1) /\
    ram s1 = ram s.
Proof.
  unfold Set_Frame_Rate, bind, peek8. cbn [fst snd].
  rewrite Z.add_0_r, writeReg_run.
  destruct (bus_write (u8 TFL_FPS_LO) adr (load8 (ram s) frm) (_Wire s))
    as [rc w1] eqn:E1.
  cbn [fst snd].
  destruct (rc =? 0) eqn:Hrc; cbn [negb]; [| discriminate].
  apply Z.eqb_eq in Hrc. subst rc.
  rewrite writeReg_run. cbn [fst snd after_write ram _Wire].
  destruct (bus_write (u8 TFL_FPS_HI) adr (load8 (ram s) (frm + 1)) w1)
    as [rc2 w2] eqn:E2.
  cbn [fst snd].
  destruct (rc2 =? 0) eqn:Hrc2; cbn [negb]; [| discriminate].
  apply Z.eqb_eq in Hrc2. subst rc2.
  intros H. injection H as <-. exists w1. auto.
Qed.

Lemma Get_Frame_Rate_success frm adr (s s2 : State W) :
  Get_Frame_Rate frm adr s = (true, s2) ->
  exists v0 w1 v1 w2,
    bus_read (u8 TFL_FPS_LO) adr (_Wire s) = (ReadByte v0, w1) /\
    bus_read (u8 TFL_FPS_HI) adr w1 = (ReadByte v1, w2) /\
    ram s2 = store8 (store8 (ram s) frm v0) (frm + 1) v1.
Proof.
  unfold Get_Frame_Rate. unfold bind at 1. rewrite readReg_run.
  destruct (bus_read (u8 TFL_FPS_LO) adr (_Wire s)) as [[rc| |v0] w1] eqn:E1;
    cbn [fst snd read_ok negb]; try discriminate.
  unfold bind at 1. unfold get_regReply at 1. cbn [fst snd].
  unfold bind at 1. unfold poke8 at 1. cbn [fst snd].
  unfold bind at 1. rewrite readReg_run. cbn [_Wire after_read].
  destruct (bus_read (u8 TFL_FPS_HI) adr w1) as [[rc| |v1] w2] eqn:E2;
    cbn [fst snd read_ok negb]; try discriminate.
  unfold bind, get_regReply, poke8, ret. cbn [fst snd regReply ram].
  intros H. injection H as <-.
  exists v0, w1, v1, w2. rewrite Z.add_0_r. auto.
Qed.

(** C8.  On a transport whose registers return the byte last written to
    them, and with the two frame-rate registers distinct, a successful
    Set_Frame_Rate of any 16-bit value x followed by a successful
    Get_Frame_Rate yields x. *)
Theorem frame_rate_round_trip x frm frm' adr (s0 s1 s2 : State W) :
  0 <= x < 65536 ->
  u8 TFL_FPS_LO <> u8 TFL_FPS_HI ->
  Set_Frame_Rate frm adr (poke16 frm x s0).2 = (true, s1) ->
  Get_Frame_Rate frm' adr s1 = (true, s2) ->
  load_u16 (ram s2) frm' = x.
Proof.
  intros Hx Hregs Hset Hget.
  apply Set_Frame_Rate_success in Hset as (w1 & Hlo & Hhi & Hram).
  apply Get_Frame_Rate_success in Hget as (v0 & w3 & v1 & w4 & Hr0 & Hr1 & Hram2).
  cbn [poke16 snd ram _Wire] in Hlo, Hhi.
  pose proof (held_write _ _ _ _ _ Hlo) as Hw1.
  pose proof (held_write _ _ _ _ _ Hhi) as Hw2.
  destruct (held_read _ _ _ _ _ Hr0) as [Hv0 Hkeep].
  destruct (held_read _ _ _ _ _ Hr1) as [Hv1 _].
  assert (Hidem : forall y, u8 (u8 y) = u8 y)
    by (intros y; apply u8_small, u8_range).
  rewrite Hidem in *.
  rewrite Hw2, Hw1, Z.eqb_refl in Hv0.
  replace (u8 TFL_FPS_LO =? u8 TFL_FPS_HI) with false in Hv0
    by (symmetry; now apply Z.eqb_neq).
  rewrite Hkeep, Hw2, Z.eqb_refl in Hv1.
  rewrite Hidem in Hv0, Hv1.
  rewrite Hram2. unfold load_u16.
  rewrite load8_store8_same, load8_store8_other, load8_store8_same by lia.
  subst v0 v1. rewrite !Hidem.
  destruct (load_u16_bytes (store16 (ram s0) frm x) frm) as [-> ->].
  rewrite load_u16_store16_same, (u16_small x Hx).
  unfold u8.
  rewrite Z.mod_mod by lia.
  rewrite (Z.mod_small (x / 256)).
  - pose proof (Z.div_mod x 256). lia.
  - split; [apply Z.div_pos; lia | apply Z.div_lt_upper_bound; lia].
Qed.

End RoundTrip.

(** * The properties on the two transports *)

(** C1: a counterexample.  getData reports a weak signal and leaves
    WeakSignal in the status slot; the Save_Settings that follows
    returns success, and the slot still holds WeakSignal, the value of
    the earlier call, not Ready. *)
Lemma status_stale_after_success :
  let s1 := (getData 100 102 104 0x10
               (on_script [Data 0x34; Data 0x12; Data 99; Data 0; Data 0xC4;
                           Data 0x09; NoData])).2 in
  let out := Save_Settings 0x10 s1 in
  tfStatus s1 = TFL_WEAK /\
  out.1 = true /\
  tfStatus out.2 = TFL_WEAK /\
  ~ reflects_outcome out.1 (tfStatus out.2).
Proof.
  cbv zeta. repeat split; try reflexivity.
  vm_compute. discriminate.
Qed.

(** C10 at an input: Save_Settings succeeds on a slot holding
    WeakSignal and leaves it there. *)
Lemma success_leaves_status_witness :
  let s := with_status TFL_WEAK (on_script [NoData]) in
  is_getData (Op_Save_Settings 0x10) = false /\
  (run (Op_Save_Settings 0x10) s).1 = true /\
  tfStatus (run (Op_Save_Settings 0x10) s).2 = tfStatus s.
Proof.
  cbv zeta. split; [reflexivity |]. split; [reflexivity |].
  apply (success_leaves_status (Op_Save_Settings 0x10)); reflexivity.
Defined.

(** C2 at an input: the flux bytes 0xFF, 0xFF. *)
Lemma saturated_flux_reported_weak_witness :
  let s := on_script [Data 0x34; Data 0x12; Data 0xFF; Data 0xFF; Data 0xC4;
                      Data 0x09] in
  (getData 100 102 104 0x10 s).1 = false /\
  tfStatus (getData 100 102 104 0x10 s).2 = TFL_WEAK /\
  tfStatus (getData 100 102 104 0x10 s).2 <> TFL_STRONG.
Proof.
  cbv zeta.
  apply (saturated_flux_reported_weak 100 102 104 0x10 _ 0x34 0x12 0xC4 0x09
           (mkScripted [] None));
    [reflexivity | reflexivity | unfold apart; lia].
Defined.

(** C3 at two inputs.  The flux bytes 0x00, 0x80 assemble to the
    pattern 0x8000, which lies between 100 and 0xFFFF, and getData
    reports failure with WeakSignal; the pattern 0x7FFF is accepted. *)
Lemma flux_pattern_outcome_witness :
  let s := on_script [Data 0x34; Data 0x12; Data 0x00; Data 0x80; Data 0xC4;
                      Data 0x09] in
  let s' := on_script [Data 0x34; Data 0x12; Data 0xFF; Data 0x7F; Data 0xC4;
                       Data 0x09] in
  (100 <= 0x00 + 0x80 * 256 < 0xFFFF /\
   (getData 100 102 104 0x10 s).1 = false /\
   tfStatus (getData 100 102 104 0x10 s).2 = TFL_WEAK) /\
  (100 <= 0xFF + 0x7F * 256 < 0xFFFF /\
   (getData 100 102 104 0x10 s').1 = true /\
   tfStatus (getData 100 102 104 0x10 s').2 = TFL_READY).
Proof.
  cbv zeta. split; (split; [lia |]).
  - refine (proj2 (flux_pattern_outcome 100 102 104 0x10 _
                     0x34 0x12 0x00 0x80 0xC4 0x09 (mkScripted [] None)
                     _ _ _ _) _);
      first [reflexivity | unfold apart; lia | lia].
  - refine (proj1 (flux_pattern_outcome 100 102 104 0x10 _
                     0x34 0x12 0xFF 0x7F 0xC4 0x09 (mkScripted [] None)
                     _ _ _ _) _);
      first [reflexivity | unfold apart; lia | lia].
Defined.

(** C4: a counterexample.  The caller passes one variable for the flux
    and the temperature.  The six reads succeed and the flux bytes 0x00,
    0x00 assemble to 0, which is below 100; the temperature 0x09C4 is
    stored in that variable after the flux, the test reads it, and
    getData reports success with Ready. *)
Lemma shared_variable_hides_weak_flux :
  let s := on_script [Data 0x34; Data 0x12; Data 0x00; Data 0x00; Data 0xC4;
                      Data 0x09] in
  bus_reads 6 TFL_DIST_LO 0x10 (_Wire s) =
    Some ([0x34; 0x12; 0x00; 0x00; 0xC4; 0x09], mkScripted [] None) /\
  le16 0x00 0x00 < 100 /\
  (getData 100 102 102 0x10 s).1 = true /\
  tfStatus (getData 100 102 102 0x10 s).2 = TFL_READY /\
  load_i16 (ram (getData 100 102 102 0x10 s).2) 102 = le16 0xC4 0x09 /\
  ~ ((getData 100 102 102 0x10 s).1 = false /\
     tfStatus (getData 100 102 102 0x10 s).2 = TFL_WEAK).
Proof.
  cbv zeta. repeat split; try reflexivity.
  intros [H _]. vm_compute in H. discriminate.
Qed.

(** C4 (amended) at an input: flux 99, three variables of two bytes
    each at 100, 102 and 104. *)
Lemma weak_flux_fails_witness :
  let s := on_script [Data 0x34; Data 0x12; Data 99; Data 0; Data 0xC4;
                      Data 0x09] in
  le16 99 0 < 100 /\
  (getData 100 102 104 0x10 s).1 = false /\
  tfStatus (getData 100 102 104 0x10 s).2 = TFL_WEAK /\
  load_i16 (ram (getData 100 102 104 0x10 s).2) 100 = le16 0x34 0x12 /\
  load_i16 (ram (getData 100 102 104 0x10 s).2) 102 = le16 99 0 /\
  load_i16 (ram (getData 100 102 104 0x10 s).2) 104 = le16 0xC4 0x09.
Proof.
  cbv zeta. split; [vm_compute; reflexivity |].
  apply (weak_flux_fails 100 102 104 0x10 _ 0x34 0x12 99 0 0xC4 0x09
           (mkScripted [] None));
    [reflexivity | reflexivity | unfold apart; lia | unfold apart; lia
    | unfold apart; lia | vm_compute; reflexivity].
Defined.

(** C9: a counterexample.  The bytes 0x00, 0x80 of the distance
    registers assemble to -32768, not to 0x00 + 0x80 * 256. *)
Lemma high_byte_sets_sign :
  let s := on_script [Data 0x00; Data 0x80; Data 100; Data 0; Data 0xC4;
                      Data 0x09] in
  (getData 100 102 104 0x10 s).1 = true /\
  load_i16 (ram (getData 100 102 104 0x10 s).2) 100 = -32768 /\
  load_i16 (ram (getData 100 102 104 0x10 s).2) 100 <> 0x00 + 0x80 * 256.
Proof.
  cbv zeta. repeat split; try reflexivity.
  vm_compute. discriminate.
Qed.

(** C9 (amended) at an input: the bytes 0x34, 0x12 assemble to 0x1234. *)
Lemma fields_little_endian_witness :
  let s := on_script [Data 0x34; Data 0x12; Data 100; Data 0; Data 0xC4;
                      Data 0x09] in
  load_i16 (ram (getData 100 102 104 0x10 s).2) 100 = 0x1234 /\
  little_endian_field (load_i16 (ram (getData 100 102 104 0x10 s).2) 100) 0x34 0x12 /\
  little_endian_field (load_i16 (ram (getData 100 102 104 0x10 s).2) 102) 100 0 /\
  little_endian_field (load_i16 (ram (getData 100 102 104 0x10 s).2) 104) 0xC4 0x09.
Proof.
  cbv zeta. split; [reflexivity |].
  apply (fields_little_endian 100 102 104 0x10 _ 0x34 0x12 100 0 0xC4 0x09
           (mkScripted [] None));
    [reflexivity | reflexivity | unfold apart; lia | unfold apart; lia
    | unfold apart; lia].
Defined.

(** C5 at two inputs: the read of register 2 finds no byte, and the
    read of register 0 is not acknowledged. *)
Lemma getData_read_failure_witness :
  let s := on_script [Data 0x34; Data 0x12; NoData; Data 1] in
  let s' := on_script [Nack 2; Data 1] in
  ((getData 100 102 104 0x10 s).1 = false /\
   bus_log (getData 100 102 104 0x10 s).2 =
     [BeginTransmission 0x10; Write 0; EndTransmission true;
      RequestFrom 0x10 1 true; Peek; Read;
      BeginTransmission 0x10; Write 1; EndTransmission true;
      RequestFrom 0x10 1 true; Peek; Read;
      BeginTransmission 0x10; Write 2; EndTransmission true;
      RequestFrom 0x10 1 true; Peek] /\
   _Wire (getData 100 102 104 0x10 s).2 = mkScripted [Data 1] None /\
   tfStatus (getData 100 102 104 0x10 s).2 = TFL_I2CREAD /\
   ram (getData 100 102 104 0x10 s).2 = ram s) /\
  ((getData 100 102 104 0x10 s').1 = false /\
   bus_log (getData 100 102 104 0x10 s').2 =
     [BeginTransmission 0x10; Write 0; EndTransmission true] /\
   _Wire (getData 100 102 104 0x10 s').2 = mkScripted [Data 1] None /\
   tfStatus (getData 100 102 104 0x10 s').2 = TFL_I2CWRITE /\
   ram (getData 100 102 104 0x10 s').2 = ram s').
Proof.
  cbv zeta. split.
  - destruct (getData_read_failure 2 100 102 104 0x10
                (on_script [Data 0x34; Data 0x12; NoData; Data 1])
                [0x34; 0x12] (mkScripted [NoData; Data 1] None)
                ReadEmpty (mkScripted [Data 1] None))
      as (H1 & H2 & _ & H4 & H5 & _ & H7);
      [lia | reflexivity | reflexivity | reflexivity |].
    repeat split; assumption.
  - destruct (getData_read_failure 0 100 102 104 0x10
                (on_script [Nack 2; Data 1])
                [] (mkScripted [Nack 2; Data 1] None)
                (ReadNack 2) (mkScripted [Data 1] None))
      as (H1 & H2 & _ & H4 & H5 & _ & H7);
      [lia | reflexivity | reflexivity | reflexivity |].
    repeat split; assumption.
Defined.

(** C6 at an input: the read of byte 5 of 14 finds no byte. *)
Lemma Get_Prod_Code_read_failure_witness :
  let s := on_script [Data 0x41; Data 0x42; Data 0x43; Data 0x44; NoData;
                      Data 0x46; Data 0x47] in
  let out := Get_Prod_Code 200 0x10 s in
  out.1 = false /\
  tfStatus out.2 = TFL_I2CREAD /\
  exchanges (skipn (length (bus_log s)) (bus_log out.2)) = 5%nat /\
  _Wire out.2 = mkScripted [Data 0x46; Data 0x47] None /\
  (forall x, x < 200 \/ 200 + 4 <= x -> ram out.2 x = ram s x) /\
  (ram out.2 200 = 0x41 /\ ram out.2 201 = 0x42 /\
   ram out.2 202 = 0x43 /\ ram out.2 203 = 0x44).
Proof.
  cbv zeta.
  destruct (Get_Prod_Code_read_failure 4 200 0x10
              (on_script [Data 0x41; Data 0x42; Data 0x43; Data 0x44; NoData;
                          Data 0x46; Data 0x47])
              [0x41; 0x42; 0x43; 0x44]
              (mkScripted [NoData; Data 0x46; Data 0x47] None)
              (mkScripted [Data 0x46; Data 0x47] None))
    as (H1 & H2 & _ & _ & H5 & H6 & H7);
    [lia | reflexivity | reflexivity |].
  split; [exact H1 |]. split; [exact H2 |]. split; [reflexivity |].
  split; [exact H5 |]. split; [exact H6 |].
  split; [exact (H7 0%nat 0x41 eq_refl) |].
  split; [exact (H7 1%nat 0x42 eq_refl) |].
  split; [exact (H7 2%nat 0x43 eq_refl) | exact (H7 3%nat 0x44 eq_refl)].
Defined.

(** C7 at an input: the rate 1000 = 0x03E8, the write of its low byte
    0xE8 not acknowledged. *)
Lemma Set_Frame_Rate_low_byte_first_witness :
  let s := (poke16 100 1000 (on_script [Nack 2; NoData])).2 in
  let out := Set_Frame_Rate (regs := TFLuna_registers) 100 0x10 s in
  out.1 = false /\
  bus_log out.2 =
    [BeginTransmission 0x10; Write 0x26; Write 0xE8; EndTransmission true] /\
  _Wire out.2 = mkScripted [NoData] None.
Proof.
  cbv zeta.
  destruct (Set_Frame_Rate_low_byte_first (regs := TFLuna_registers) 100 0x10
              (poke16 100 1000 (on_script [Nack 2; NoData])).2)
    as [Hfail _].
  destruct Hfail as (H1 & H2 & _ & H4); [vm_compute; discriminate |].
  repeat split; assumption.
Defined.

(** C8 at the rates 1, 100, 1000 and 65535, on the register file. *)
Lemma frame_rate_round_trip_witness :
  Forall
    (fun x =>
       0 <= x < 65536 /\
       let s1 := (Set_Frame_Rate (regs := TFLuna_registers) 100 0x10
                    (poke16 100 x (fresh blank_device)).2).2 in
       let s2 := (Get_Frame_Rate (regs := TFLuna_registers) 300 0x10 s1).2 in
       load_u16 (ram s2) 300 = x)
    [1; 100; 1000; 65535].
Proof.
  assert (Hrun : forall x, 0 <= x < 65536 ->
            (Set_Frame_Rate (regs := TFLuna_registers) 100 0x10
               (poke16 100 x (fresh blank_device)).2).1 = true ->
            (Get_Frame_Rate (regs := TFLuna_registers) 300 0x10
               (Set_Frame_Rate (regs := TFLuna_registers) 100 0x10
                  (poke16 100 x (fresh blank_device)).2).2).1 = true ->
            0 <= x < 65536 /\
            load_u16
              (ram (Get_Frame_Rate (regs := TFLuna_registers) 300 0x10
                      (Set_Frame_Rate (regs := TFLuna_registers) 100 0x10
                         (poke16 100 x (fresh blank_device)).2).2).2) 300 = x).
  { intros x Hx Hset Hget. split; [exact Hx |].
    apply (frame_rate_round_trip (regs := TFLuna_registers) x 100 300 0x10
             (fresh blank_device)
             (Set_Frame_Rate (regs := TFLuna_registers) 100 0x10
                (poke16 100 x (fresh blank_device)).2).2
             (Get_Frame_Rate (regs := TFLuna_registers) 300 0x10
                (Set_Frame_Rate (regs := TFLuna_registers) 100 0x10
                   (poke16 100 x (fresh blank_device)).2).2).2
             Hx).
    - vm_compute. discriminate.
    - rewrite <- Hset. apply surjective_pairing.
    - rewrite <- Hget. apply surjective_pairing. }
  repeat (apply List.Forall_cons;
          [cbv beta zeta; apply Hrun; [lia | reflexivity | reflexivity] |]).
  apply List.Forall_nil.
Defined.

(** * Further properties of the driver *)

Section Coverage.
Context {W : Type} {wire : TwoWire W} {regs : RegisterMap}.

(** ** Complete and interrupted register sequences *)

(** A sequence of reads either delivers all its bytes or has a first
    read that delivers none. *)
Lemma bus_reads_dichotomy n : forall reg addr (w : W),
  (exists vs w', bus_reads n reg addr w = Some (vs, w')) \/
  (exists (k : nat) vs w1 r w2,
     (k < n)%nat /\
     bus_reads k reg addr w = Some (vs, w1) /\
     bus_read (u8 (reg + Z.of_nat k)) addr w1 = (r, w2) /\
     read_ok r = false).
Proof.
  induction n as [|n IH]; intros reg addr w.
  - left. exists [], w. reflexivity.
  - destruct (bus_read (u8 reg) addr w) as [r w1] eqn:E.
    destruct (read_ok r) eqn:Hr.
    + destruct r as [rc| |v]; try discriminate.
      destruct (IH (reg + 1) addr w1) as [(vs & w' & H) | (k & vs & w2 & r & w3 & Hk & H & Hf & Hr')].
      * left. exists (v :: vs), w'. simpl. now rewrite E, H.
      * right. exists (S k), (v :: vs), w2, r, w3.
        split; [lia |]. split; [simpl; now rewrite E, H |].
        split; [| assumption].
        replace (reg + Z.of_nat (S k)) with (reg + 1 + Z.of_nat k) by lia.
        assumption.
    + right. exists 0%nat, [], w, r, w1.
      split; [lia |]. split; [reflexivity |].
      split; [| assumption].
      now rewrite Z.add_0_r.
Qed.

Lemma bus_reads_none_fails n reg addr (w : W) :
  bus_reads n reg addr w = None ->
  exists (k : nat) vs w1 r w2,
    (k < n)%nat /\
    bus_reads k reg addr w = Some (vs, w1) /\
    bus_read (u8 (reg + Z.of_nat k)) addr w1 = (r, w2) /\
    read_ok r = false.
Proof.
  intros H.
  destruct (bus_reads_dichotomy n reg addr w) as [(vs & w' & H') | H']; [congruence | exact H'].
Qed.

(** X3.  getData returns true exactly when all six reads deliver a byte
    and the flux assembled from bytes 2 and 3, as a signed 16-bit
    integer, is at least 100. *)
Theorem getData_true_iff dist flux temp addr (s : State W) :
  length (dataArray s) = 6%nat ->
  apart flux temp ->
  (getData dist flux temp addr s).1 = true <->
  exists b0 b1 b2 b3 b4 b5 w',
    bus_reads 6 TFL_DIST_LO addr (_Wire s) = Some ([b0; b1; b2; b3; b4; b5], w') /\
    100 <= le16 b2 b3.
Proof.
  intros Hlen Hft. split.
  - intros Htrue.
    destruct (bus_reads 6 TFL_DIST_LO addr (_Wire s)) as [[vs w']|] eqn:H.
    + destruct (bus_reads_bytes _ _ _ _ _ _ H) as [Hl _].
      destruct vs as [|b0 [|b1 [|b2 [|b3 [|b4 [|b5 [|b6 vs]]]]]]]; try discriminate.
      exists b0, b1, b2, b3, b4, b5, w'. split; [reflexivity |].
      rewrite (getData_run _ _ _ _ _ _ _ _ _ _ _ _ Hlen H) in Htrue.
      cbn [fst] in Htrue. rewrite measured_flux in Htrue by assumption.
      destruct (Z.lt_ge_cases (le16 b2 b3) 100) as [Hlt | Hge]; [| exact Hge].
      rewrite flux_status_weak in Htrue by assumption. discriminate.
    + destruct (bus_reads_none_fails _ _ _ _ H) as (k & vs & w1 & r & w2 & Hk & Hp & Hr & Hf).
      rewrite u8_small in Hr by (unfold TFL_DIST_LO; lia).
      rewrite (getData_fails k _ _ _ _ _ _ _ _ _ Hk Hp Hr Hf) in Htrue.
      discriminate.
  - intros (b0 & b1 & b2 & b3 & b4 & b5 & w' & H & Hge).
    rewrite (getData_run _ _ _ _ _ _ _ _ _ _ _ _ Hlen H).
    cbn [fst]. rewrite measured_flux by assumption.
    now rewrite flux_status_ready.
Qed.

(** X4.  The short getData applies the same policy as the long one: when
    the six reads deliver their bytes it returns true exactly when the
    flux is at least 100, and either way the caller's distance variable
    holds the assembled distance; a weak signal makes the call fail
    although only the distance was asked for. *)
Theorem getData_short_policy flux temp dist addr (s : State W)
    b0 b1 b2 b3 b4 b5 w' :
  length (dataArray s) = 6%nat ->
  bus_reads 6 TFL_DIST_LO addr (_Wire s) = Some ([b0; b1; b2; b3; b4; b5], w') ->
  apart dist flux -> apart dist temp -> apart flux temp ->
  let out := getData_short flux temp dist addr s in
  load_i16 (ram out.2) dist = le16 b0 b1 /\
  (100 <= le16 b2 b3 -> out.1 = true /\ tfStatus out.2 = TFL_READY) /\
  (le16 b2 b3 < 100 -> out.1 = false /\ tfStatus out.2 = TFL_WEAK).
Proof.
  intros Hlen H Hdf Hdt Hft. cbv zeta. unfold getData_short.
  rewrite (getData_run _ _ _ _ _ _ _ _ _ _ _ _ Hlen H).
  cbn [fst snd tfStatus ram].
  rewrite measured_dist, measured_flux by assumption.
  split; [reflexivity |]. split; intros Hf.
  - now rewrite flux_status_ready.
  - now rewrite flux_status_weak.
Qed.

(** X5.  When getData stops at the read of register k, dataArray holds
    the k bytes just read followed by what it held before from index k
    on: the frame a later printDataArray shows mixes new and old
    bytes. *)
Theorem getData_failure_mixes_frame (k : nat) dist flux temp addr (s : State W)
    vs w1 r w2 :
  (k < 6)%nat ->
  length (dataArray s) = 6%nat ->
  bus_reads k TFL_DIST_LO addr (_Wire s) = Some (vs, w1) ->
  bus_read (TFL_DIST_LO + Z.of_nat k) addr w1 = (r, w2) ->
  read_ok r = false ->
  dataArray (getData dist flux temp addr s).2 = vs ++ drop k (dataArray s).
Proof.
  intros Hk Hlen H Hr Hfail.
  rewrite (getData_fails k _ _ _ _ _ _ _ _ _ Hk H Hr Hfail).
  cbn [snd after_read after_data_reads with_status dataArray].
  destruct (bus_reads_bytes _ _ _ _ _ _ H) as [Hl _].
  destruct (dataArray s) as [|a0 [|a1 [|a2 [|a3 [|a4 [|a5 [|a6 l]]]]]]];
    try discriminate.
  clear - Hk Hl.
  do 6 (destruct k as [|k]; [
    repeat (destruct vs as [|? vs]; try discriminate); reflexivity |]).
  lia.
Qed.

(** ** Get_Prod_Code and Get_Firmware_Version *)

(** X6.  Get_Prod_Code returns true exactly when the fourteen reads of
    registers 0x10 to 0x1D each deliver a byte; the buffer then holds
    the fourteen bytes in register order and the status slot is
    untouched.  Otherwise it returns false with a transport error in
    the status slot. *)
Theorem Get_Prod_Code_outcome p_cod adr (s : State W) :
  let out := Get_Prod_Code p_cod adr s in
  match bus_reads 14 0x10 adr (_Wire s) with
  | Some (vs, w') =>
      out.1 = true /\
      tfStatus out.2 = tfStatus s /\
      _Wire out.2 = w' /\
      bus_log out.2 = bus_log s ++ reads_calls 14 0x10 adr /\
      length vs = 14%nat /\
      (forall (j : nat) v, vs !! j = Some v -> ram out.2 (p_cod + Z.of_nat j) = v)
  | None =>
      out.1 = false /\
      (tfStatus out.2 = TFL_I2CWRITE \/ tfStatus out.2 = TFL_I2CREAD)
  end.
Proof.
  cbv zeta.
  destruct (bus_reads 14 16 adr (_Wire s)) as [[vs w']|] eqn:H.
  - destruct (bus_reads_bytes _ _ _ _ _ _ H) as [Hlen Hbytes].
    unfold Get_Prod_Code. change 14%nat with (14 + 0)%nat.
    rewrite (Get_Prod_Code_loop_prefix 14 0 0 p_cod adr s vs w')
      by first [exact H | lia].
    cbn [Get_Prod_Code_loop ret fst snd].
    unfold after_code_reads. cbn [tfStatus _Wire bus_log ram].
    rewrite (Z.add_0_r p_cod).
    repeat split; try assumption.
    intros j v Hj. now apply store_bytes_at.
  - destruct (bus_reads_none_fails _ _ _ _ H) as (k & vs & w1 & r & w2 & Hk & Hp & Hr & Hf).
    rewrite u8_small in Hr by lia.
    rewrite (Get_Prod_Code_fails k p_cod adr s vs w1 r w2 Hk Hp Hr Hf).
    cbn [fst snd after_read tfStatus].
    split; [reflexivity |].
    destruct r; simpl; auto. discriminate Hf.
Qed.

(** The first [k] iterations of the loop of [Get_Firmware_Version],
    when each of their reads delivers a byte. *)
Lemma Get_Firmware_Version_loop_prefix k : forall n i p_ver adr (s : State W) vs w1,
  0 <= i -> 0x0A + i + Z.of_nat (k + n) < 256 ->
  bus_reads k (0x0A + i) adr (_Wire s) = Some (vs, w1) ->
  Get_Firmware_Version_loop (k + n) i p_ver adr s =
  Get_Firmware_Version_loop n (i + Z.of_nat k) p_ver adr
                            (after_version_reads k i p_ver adr vs w1 s).
Proof.
  induction k as [|k IH]; intros n i p_ver adr s vs w1 Hi Hmax H; simpl in H.
  - injection H as <- <-.
    unfold after_version_reads; simpl.
    now rewrite Z.add_0_r, app_nil_r, state_eta.
  - destruct (bus_read (u8 (10 + i)) adr (_Wire s)) as [[rc| |v] w'] eqn:E;
      try discriminate.
    destruct (bus_reads k (10 + i + 1) adr w') as [[vs' w2]|] eqn:E'; try discriminate.
    injection H as <- <-.
    change (S k + n)%nat with (S (k + n)). cbn [Get_Firmware_Version_loop].
    unfold bind at 1. rewrite readReg_run, E. cbn [fst snd read_ok negb].
    unfold bind, get_regReply, poke8. cbn [fst snd].
    rewrite (u8_small (i + 1)) by lia.
    replace (10 + i + 1) with (10 + (i + 1)) in E' by lia.
    rewrite (IH n (i + 1) p_ver adr _ vs' w2) by (simpl; (lia || assumption)).
    replace (i + 1 + Z.of_nat k) with (i + Z.of_nat (S k)) by lia.
    f_equal.
    unfold after_version_reads, after_read, read_calls; simpl.
    replace (p_ver + (i + 1)) with (p_ver + i + 1) by lia.
    replace (10 + (i + 1)) with (10 + i + 1) by lia.
    now rewrite <- !app_assoc.
Qed.

Lemma Get_Firmware_Version_fails (i : nat) p_ver adr (s : State W) vs w1 r w2 :
  (i < 3)%nat ->
  bus_reads i 0x0A adr (_Wire s) = Some (vs, w1) ->
  bus_read (0x0A + Z.of_nat i) adr w1 = (r, w2) ->
  read_ok r = false ->
  Get_Firmware_Version p_ver adr s =
  (false,
   after_read (0x0A + Z.of_nat i) adr r w2
              (after_version_reads i 0 p_ver adr vs w1 s)).
Proof.
  intros Hi H Hr Hfail.
  unfold Get_Firmware_Version.
  replace 3%nat with (i + S (2 - i))%nat by lia.
  rewrite (Get_Firmware_Version_loop_prefix i (S (2 - i)) 0 p_ver adr s vs w1)
    by first [exact H | lia].
  cbn [Get_Firmware_Version_loop]. unfold bind at 1.
  rewrite readReg_run.
  change (_Wire (after_version_reads i 0 p_ver adr vs w1 s)) with w1.
  rewrite (u8_small (10 + (0 + Z.of_nat i))) by lia.
  replace (10 + (0 + Z.of_nat i)) with (10 + Z.of_nat i) by lia.
  rewrite Hr. cbn [fst snd]. rewrite Hfail. reflexivity.
Qed.

(** X7.  Get_Firmware_Version returns true exactly when the three reads
    of registers 0x0A, 0x0B and 0x0C each deliver a byte; the buffer then
    holds the three bytes in register order and the status slot is
    untouched.  Otherwise it returns false with a transport error in
    the status slot. *)
Theorem Get_Firmware_Version_outcome p_ver adr (s : State W) :
  let out := Get_Firmware_Version p_ver adr s in
  match bus_reads 3 0x0A adr (_Wire s) with
  | Some (vs, w') =>
      out.1 = true /\
      tfStatus out.2 = tfStatus s /\
      _Wire out.2 = w' /\
      bus_log out.2 = bus_log s ++ reads_calls 3 0x0A adr /\
      length vs = 3%nat /\
      (forall (j : nat) v, vs !! j = Some v -> ram out.2 (p_ver + Z.of_nat j) = v)
  | None =>
      out.1 = false /\
      (tfStatus out.2 = TFL_I2CWRITE \/ tfStatus out.2 = TFL_I2CREAD)
  end.
Proof.
  cbv zeta.
  destruct (bus_reads 3 10 adr (_Wire s)) as [[vs w']|] eqn:H.
  - destruct (bus_reads_bytes _ _ _ _ _ _ H) as [Hlen Hbytes].
    unfold Get_Firmware_Version. change 3%nat with (3 + 0)%nat.
    rewrite (Get_Firmware_Version_loop_prefix 3 0 0 p_ver adr s vs w')
      by first [exact H | lia].
    cbn [Get_Firmware_Version_loop ret fst snd].
    unfold after_version_reads. cbn [tfStatus _Wire bus_log ram].
    rewrite (Z.add_0_r p_ver).
    repeat split; try assumption.
    intros j v Hj. now apply store_bytes_at.
  - destruct (bus_reads_none_fails _ _ _ _ H) as (k & vs & w1 & r & w2 & Hk & Hp & Hr & Hf).
    rewrite u8_small in Hr by lia.
    rewrite (Get_Firmware_Version_fails k p_ver adr s vs w1 r w2 Hk Hp Hr Hf).
    cbn [fst snd after_read tfStatus].
    split; [reflexivity |].
    destruct r; simpl; auto. discriminate Hf.
Qed.

(** X8.  When the read of byte i of the firmware version fails after i
    reads that delivered theirs, Get_Firmware_Version returns failure
    with the status that read set, makes no further exchange, and has
    written the i bytes received to the front of the buffer and nothing
    else: a version buffer filled in part. *)
Theorem Get_Firmware_Version_read_failure (i : nat) p_ver adr (s : State W)
    vs w1 r w2 :
  (i < 3)%nat ->
  bus_reads i 0x0A adr (_Wire s) = Some (vs, w1) ->
  bus_read (0x0A + Z.of_nat i) adr w1 = (r, w2) ->
  read_ok r = false ->
  let out := Get_Firmware_Version p_ver adr s in
  let added := reads_calls i 0x0A adr ++ read_calls (0x0A + Z.of_nat i) adr r in
  out.1 = false /\
  tfStatus out.2 = read_status r TFL_READY /\
  bus_log out.2 = bus_log s ++ added /\
  exchanges added = S i /\
  _Wire out.2 = w2 /\
  (forall x, x < p_ver \/ p_ver + Z.of_nat i <= x -> ram out.2 x = ram s x) /\
  (forall (j : nat) v, vs !! j = Some v -> ram out.2 (p_ver + Z.of_nat j) = v).
Proof.
  intros Hi H Hr Hfail. cbv zeta.
  destruct (bus_reads_bytes _ _ _ _ _ _ H) as [Hlen Hbytes].
  rewrite (Get_Firmware_Version_fails i p_ver adr s vs w1 r w2 Hi H Hr Hfail).
  cbn [fst snd]. unfold after_read, after_version_reads.
  cbn [bus_log _Wire tfStatus ram].
  rewrite (Z.add_0_r p_ver). change (10 + 0) with 10.
  split; [reflexivity |].
  split; [destruct r; first [reflexivity | discriminate Hfail] |].
  split; [now rewrite app_assoc |].
  split; [apply exchanges_prefix_and_read |].
  split; [reflexivity |].
  split.
  - intros x [Hx | Hx].
    + now apply store_bytes_below.
    + apply store_bytes_above. lia.
  - intros j v Hj. now apply store_bytes_at.
Qed.


(** ** Get_Time and Get_Frame_Rate *)

Lemma Get_Time_read_pair tim adr :
  Get_Time tim adr = read_pair (W := W) (u8 TFL_TICK_LO) (u8 TFL_TICK_HI) tim adr.
Proof. reflexivity. Qed.

Lemma Get_Frame_Rate_read_pair frm adr :
  Get_Frame_Rate frm adr = read_pair (W := W) (u8 TFL_FPS_LO) (u8 TFL_FPS_HI) frm adr.
Proof. reflexivity. Qed.

(** Both reads deliver a byte. *)
Lemma read_pair_both lo hi p adr (s : State W) b0 w1 b1 w2 :
  bus_read lo adr (_Wire s) = (ReadByte b0, w1) ->
  bus_read hi adr w1 = (ReadByte b1, w2) ->
  read_pair lo hi p adr s =
  (true,
   mkState (tfStatus s) b1 (dataArray s) w2
           (store8 (store8 (ram s) p b0) (p + 1) b1)
           (bus_log s ++ read_calls lo adr (ReadByte b0) ++
                         read_calls hi adr (ReadByte b1))).
Proof.
  intros H0 H1. unfold read_pair.
  unfold bind at 1. rewrite readReg_run, H0. cbn [fst snd read_ok negb].
  unfold bind at 1. unfold get_regReply at 1. cbn [fst snd].
  unfold bind at 1. unfold poke8 at 1. cbn [fst snd].
  unfold bind at 1. rewrite readReg_run. cbn [_Wire after_read].
  rewrite H1. cbn [fst snd read_ok negb].
  unfold bind, get_regReply, poke8, ret, after_read.
  cbn [fst snd regReply ram tfStatus dataArray _Wire bus_log read_status].
  now rewrite Z.add_0_r, <- app_assoc.
Qed.

(** The first read delivers a byte and the second does not. *)
Lemma read_pair_second_fails lo hi p adr (s : State W) b0 w1 r w2 :
  bus_read lo adr (_Wire s) = (ReadByte b0, w1) ->
  bus_read hi adr w1 = (r, w2) ->
  read_ok r = false ->
  read_pair lo hi p adr s =
  (false,
   mkState (read_status r TFL_READY) b0 (dataArray s) w2
           (store8 (ram s) p b0)
           (bus_log s ++ read_calls lo adr (ReadByte b0) ++ read_calls hi adr r)).
Proof.
  intros H0 H1 Hr. unfold read_pair.
  unfold bind at 1. rewrite readReg_run, H0. cbn [fst snd read_ok negb].
  unfold bind at 1. unfold get_regReply at 1. cbn [fst snd].
  unfold bind at 1. unfold poke8 at 1. cbn [fst snd].
  unfold bind at 1. rewrite readReg_run. cbn [_Wire after_read].
  rewrite H1. cbn [fst snd]. rewrite Hr. cbn [negb]. unfold ret, after_read.
  cbn [regReply ram tfStatus dataArray _Wire bus_log].
  rewrite Z.add_0_r, <- app_assoc.
  destruct r; first [reflexivity | discriminate Hr].
Qed.

Lemma load_u16_two_bytes (m : Ram) p b0 b1 :
  0 <= b0 < 256 -> 0 <= b1 < 256 ->
  load_u16 (store8 (store8 m p b0) (p + 1) b1) p = b0 + b1 * 256.
Proof.
  intros H0 H1. unfold load_u16.
  rewrite load8_store8_same, load8_store8_other, load8_store8_same by lia.
  rewrite !u8_small by assumption. lia.
Qed.

Lemma load_u16_low_byte (m : Ram) p b0 :
  0 <= b0 < 256 ->
  load_u16 (store8 m p b0) p = b0 + 256 * (load_u16 m p / 256).
Proof.
  intros H0. unfold load_u16 at 1.
  rewrite load8_store8_same, load8_store8_other by lia.
  destruct (load_u16_bytes m p) as [_ ->].
  now rewrite u8_small.
Qed.

(** X9.  When both reads deliver a byte, Get_Time returns true with the
    status slot untouched, and the caller's [uint16_t] holds the count
    b0 + b1 * 256 of the low and the high tick register, a number
    between 0 and 65535; no other byte of caller memory changes. *)
Theorem Get_Time_assembles tim adr (s : State W) b0 w1 b1 w2 :
  bus_read (u8 TFL_TICK_LO) adr (_Wire s) = (ReadByte b0, w1) ->
  bus_read (u8 TFL_TICK_HI) adr w1 = (ReadByte b1, w2) ->
  let out := Get_Time tim adr s in
  out.1 = true /\
  tfStatus out.2 = tfStatus s /\
  load_u16 (ram out.2) tim = b0 + b1 * 256 /\
  0 <= b0 + b1 * 256 < 65536 /\
  (forall x, x <> tim -> x <> tim + 1 -> ram out.2 x = ram s x).
Proof.
  intros H0 H1. cbv zeta.
  pose proof (bus_read_byte _ _ _ _ _ H0) as Hb0.
  pose proof (bus_read_byte _ _ _ _ _ H1) as Hb1.
  rewrite Get_Time_read_pair, (read_pair_both _ _ _ _ _ _ _ _ _ H0 H1).
  cbn [fst snd tfStatus ram].
  split; [reflexivity |]. split; [reflexivity |].
  split; [now apply load_u16_two_bytes |].
  split; [lia |].
  intros x Hx Hx'. unfold store8.
  destruct (x =? tim + 1) eqn:E1; [apply Z.eqb_eq in E1; contradiction |].
  destruct (x =? tim) eqn:E2; [apply Z.eqb_eq in E2; contradiction | reflexivity].
Qed.

(** X10.  When its first read delivers a byte and its second read
    fails, Get_Time returns false and has already overwritten the low
    byte of the caller's variable: the variable holds the new low byte
    under its old high byte. *)
Theorem Get_Time_torn tim adr (s : State W) b0 w1 r w2 :
  bus_read (u8 TFL_TICK_LO) adr (_Wire s) = (ReadByte b0, w1) ->
  bus_read (u8 TFL_TICK_HI) adr w1 = (r, w2) ->
  read_ok r = false ->
  let out := Get_Time tim adr s in
  out.1 = false /\
  tfStatus out.2 = read_status r TFL_READY /\
  load_u16 (ram out.2) tim = b0 + 256 * (load_u16 (ram s) tim / 256).
Proof.
  intros H0 H1 Hr. cbv zeta.
  pose proof (bus_read_byte _ _ _ _ _ H0) as Hb0.
  rewrite Get_Time_read_pair, (read_pair_second_fails _ _ _ _ _ _ _ _ _ H0 H1 Hr).
  cbn [fst snd tfStatus ram].
  split; [reflexivity |]. split; [reflexivity |].
  now apply load_u16_low_byte.
Qed.

(** X11.  Get_Frame_Rate likewise: with both reads delivering a byte it
    returns true and the caller's [uint16_t] holds b0 + b1 * 256; with
    the first read delivering and the second failing it returns false
    and leaves the new low byte under the old high byte. *)
Theorem Get_Frame_Rate_outcomes frm adr (s : State W) b0 w1 r w2 :
  bus_read (u8 TFL_FPS_LO) adr (_Wire s) = (ReadByte b0, w1) ->
  bus_read (u8 TFL_FPS_HI) adr w1 = (r, w2) ->
  let out := Get_Frame_Rate frm adr s in
  match r with
  | ReadByte b1 =>
      out.1 = true /\
      tfStatus out.2 = tfStatus s /\
      load_u16 (ram out.2) frm = b0 + b1 * 256
  | _ =>
      out.1 = false /\
      tfStatus out.2 = read_status r TFL_READY /\
      load_u16 (ram out.2) frm = b0 + 256 * (load_u16 (ram s) frm / 256)
  end.
Proof.
  intros H0 H1. cbv zeta.
  pose proof (bus_read_byte _ _ _ _ _ H0) as Hb0.
  rewrite Get_Frame_Rate_read_pair.
  destruct r as [rc| |b1].
  - rewrite (read_pair_second_fails _ _ _ _ _ _ _ _ _ H0 H1 eq_refl).
    cbn [fst snd tfStatus ram].
    split; [reflexivity |]. split; [reflexivity |]. now apply load_u16_low_byte.
  - rewrite (read_pair_second_fails _ _ _ _ _ _ _ _ _ H0 H1 eq_refl).
    cbn [fst snd tfStatus ram].
    split; [reflexivity |]. split; [reflexivity |]. now apply load_u16_low_byte.
  - pose proof (bus_read_byte _ _ _ _ _ H1) as Hb1.
    rewrite (read_pair_both _ _ _ _ _ _ _ _ _ H0 H1).
    cbn [fst snd tfStatus ram].
    split; [reflexivity |]. split; [reflexivity |]. now apply load_u16_two_bytes.
Qed.


(** ** What an operation leaves alone *)

Section Stepping.
Variable R : State W -> State W -> Prop.
Hypothesis R_refl : forall s, R s s.
Hypothesis R_trans : forall a b c, R a b -> R b c -> R a c.

Lemma steps_ret {A} (a : A) : steps_in R (ret a).
Proof. intros s. apply R_refl. Qed.

Lemma steps_bind {A B} (c : M W A) (k : A -> M W B) :
  steps_in R c -> (forall x, steps_in R (k x)) -> steps_in R (x <- c ;; k x).
Proof.
  intros Hc Hk s. unfold bind.
  specialize (Hc s). destruct (c s) as [a s1]. simpl in Hc.
  exact (R_trans _ _ _ Hc (Hk a s1)).
Qed.

Lemma steps_if {A} (b : bool) (c1 c2 : M W A) :
  steps_in R c1 -> steps_in R c2 -> steps_in R (if b then c1 else c2).
Proof. now destruct b. Qed.

Lemma steps_same {A} (c : M W A) : (forall s, (c s).2 = s) -> steps_in R c.
Proof. intros H s. rewrite H. apply R_refl. Qed.

End Stepping.

(** Walks through a computation written with [bind], [ret] and [if],
    leaving the calls of the primitives to [tac]. *)
Ltac stepping refl trans tac :=
  repeat first
    [ tac
    | apply (steps_ret _ refl)
    | apply (steps_same _ refl); intros ?; reflexivity
    | apply steps_if
    | apply (steps_bind _ trans); [| intros ?] ].

Lemma ram_outside_refl P (s : State W) : ram_outside P s s.
Proof. intros x _. reflexivity. Qed.

Lemma ram_outside_trans P (a b c : State W) :
  ram_outside P a b -> ram_outside P b c -> ram_outside P a c.
Proof. intros Hab Hbc x Hx. now rewrite Hbc, Hab. Qed.

Lemma ram_kept {A} P (c : M W A) :
  (forall s, ram (c s).2 = ram s) -> steps_in (ram_outside P) c.
Proof. intros H s x _. now rewrite H. Qed.

Lemma ram_kept_readReg nmbr addr (s : State W) : ram (readReg nmbr addr s).2 = ram s.
Proof. now rewrite readReg_run. Qed.

Lemma ram_kept_writeReg nmbr addr data (s : State W) :
  ram (writeReg nmbr addr data s).2 = ram s.
Proof. now rewrite writeReg_run. Qed.

Lemma ram_outside_poke8 (P : Z -> Prop) a v :
  P a -> steps_in (W := W) (ram_outside P) (poke8 a v).
Proof.
  intros Ha s x Hx. simpl. unfold store8.
  destruct (x =? a) eqn:E; [apply Z.eqb_eq in E; subst; contradiction | reflexivity].
Qed.

Lemma ram_outside_poke16 (P : Z -> Prop) a v :
  P a -> P (a + 1) -> steps_in (W := W) (ram_outside P) (poke16 a v).
Proof.
  intros Ha Ha' s x Hx. simpl. unfold store16, store8.
  destruct (x =? a + 1) eqn:E'; [apply Z.eqb_eq in E'; subst; contradiction |].
  destruct (x =? a) eqn:E; [apply Z.eqb_eq in E; subst; contradiction | reflexivity].
Qed.

Ltac ram_step P :=
  first
    [ apply (ram_kept P); intros ?; first [apply ram_kept_readReg | apply ram_kept_writeReg | reflexivity]
    | apply ram_outside_poke8
    | apply ram_outside_poke16 ].

Ltac ram_walk P :=
  stepping (ram_outside_refl P) (ram_outside_trans P) ltac:(ram_step P).

Lemma ram_outside_Get_Prod_Code_loop p_cod (m : Z) n : forall i adr,
  0 <= i -> i + Z.of_nat n <= m -> m < 256 ->
  steps_in (W := W) (ram_outside (within p_cod m)) (Get_Prod_Code_loop n i p_cod adr).
Proof.
  induction n as [|n IH]; intros i adr Hi Hn Hm; cbn [Get_Prod_Code_loop];
    ram_walk (within p_cod m).
  - unfold within. lia.
  - rewrite u8_small by lia. apply IH; lia.
Qed.

Lemma ram_outside_Get_Firmware_Version_loop p_ver (m : Z) n : forall i adr,
  0 <= i -> i + Z.of_nat n <= m -> m < 256 ->
  steps_in (W := W) (ram_outside (within p_ver m)) (Get_Firmware_Version_loop n i p_ver adr).
Proof.
  induction n as [|n IH]; intros i adr Hi Hn Hm; cbn [Get_Firmware_Version_loop];
    ram_walk (within p_ver m).
  - unfold within. lia.
  - rewrite u8_small by lia. apply IH; lia.
Qed.

(** X12.  An operation writes caller memory only inside the objects it
    was handed: the three [int16_t] of getData, the [uint16_t] of
    Get_Time and Get_Frame_Rate, the 14 bytes of the product-code buffer,
    the 3 bytes of the version buffer.  Every other byte is as it was,
    and the write commands and the primitives write none. *)
Theorem writes_stay_in_footprint (op : Operation) (s : State W) x :
  ~ footprint op x -> ram (run op s).2 x = ram s x.
Proof.
  intros Hx. revert s x Hx.
  change (steps_in (ram_outside (footprint op)) (run op)).
  destruct op; cbn [run footprint];
    try (apply ram_kept; intros s; first [apply ram_kept_writeReg | apply ram_kept_readReg]).
  - unfold getData.
    ram_walk (fun x => within dist 2 x \/ within flux 2 x \/ within temp 2 x);
      unfold within; lia.
  - unfold getData_short, getData.
    ram_walk (fun x => within dist 2 x \/ within flux 2 x \/ within temp 2 x);
      unfold within; lia.
  - unfold Get_Time. ram_walk (within tim 2); unfold within; lia.
  - apply ram_outside_Get_Prod_Code_loop; lia.
  - apply ram_outside_Get_Firmware_Version_loop; lia.
  - unfold Set_Frame_Rate. ram_walk (fun _ : Z => False).
  - unfold Get_Frame_Rate. ram_walk (within frm 2); unfold within; lia.
Qed.


(** ** The raw frame *)

Lemma dataArray_kept_readReg nmbr addr (s : State W) :
  dataArray (readReg nmbr addr s).2 = dataArray s.
Proof. now rewrite readReg_run. Qed.

Lemma dataArray_kept_writeReg nmbr addr data (s : State W) :
  dataArray (writeReg nmbr addr data s).2 = dataArray s.
Proof. now rewrite writeReg_run. Qed.

Ltac frame_walk :=
  stepping (fun s : State W => eq_refl (dataArray s))
           (fun (a b c : State W) (H1 : dataArray b = dataArray a)
                (H2 : dataArray c = dataArray b) => eq_trans H2 H1)
           ltac:(intros ?;
                 first [ apply dataArray_kept_readReg
                       | apply dataArray_kept_writeReg
                       | reflexivity ]).

Lemma dataArray_kept_Get_Prod_Code_loop n : forall i p_cod adr,
  steps_in (W := W) (fun s s' => dataArray s' = dataArray s)
           (Get_Prod_Code_loop n i p_cod adr).
Proof.
  induction n as [|n IH]; intros i p_cod adr; cbn [Get_Prod_Code_loop]; frame_walk.
  apply IH.
Qed.

(** X13.  Only getData writes dataArray: after a register primitive or
    an explicit command, successful or not, the raw frame is the one the
    last getData left, which is what printDataArray then shows. *)
Theorem only_getData_writes_dataArray (op : Operation) (s : State W) :
  is_getData op = false ->
  dataArray (run op s).2 = dataArray s.
Proof.
  intros Hop. revert s.
  change (steps_in (fun s s' => dataArray s' = dataArray s) (run op)).
  destruct op; try discriminate Hop; cbn [run];
    try (intros s; first [apply dataArray_kept_writeReg | apply dataArray_kept_readReg]).
  - unfold Get_Time. frame_walk.
  - apply dataArray_kept_Get_Prod_Code_loop.
  - unfold Get_Firmware_Version. cbn [Get_Firmware_Version_loop]. frame_walk.
  - unfold Set_Frame_Rate. frame_walk.
  - unfold Get_Frame_Rate. frame_walk.
Qed.

(** ** The discipline of the bus *)

Lemma run_phase_app p l1 l2 :
  run_phase p (l1 ++ l2) =
  match run_phase p l1 with
  | Some q => run_phase q l2
  | None => None
  end.
Proof.
  revert p. induction l1 as [|c l1 IH]; intros p; simpl; [reflexivity |].
  destruct (phase_step p c); [apply IH | reflexivity].
Qed.

Lemma disciplined_nil : disciplined [].
Proof. intros p Hp. exists p. now split. Qed.

Lemma disciplined_app l1 l2 :
  disciplined l1 -> disciplined l2 -> disciplined (l1 ++ l2).
Proof.
  intros H1 H2 p Hp.
  destruct (H1 p Hp) as (q & Hq & Hquiet).
  destruct (H2 q Hquiet) as (q' & Hq' & Hquiet').
  exists q'. rewrite run_phase_app, Hq. now split.
Qed.

Lemma disciplined_read_calls nmbr addr r : disciplined (read_calls nmbr addr r).
Proof.
  intros p Hp.
  destruct p; try discriminate Hp; destruct r; simpl; eexists; split; reflexivity.
Qed.

Lemma disciplined_write_calls nmbr addr data : disciplined (write_calls nmbr addr data).
Proof.
  intros p Hp.
  destruct p; try discriminate Hp; simpl; eexists; split; reflexivity.
Qed.

Lemma grows_ret {A} (a : A) : steps_in (W := W) (log_grows 0) (ret a).
Proof.
  intros s. exists []. simpl. rewrite app_nil_r.
  split; [reflexivity |]. split; [apply disciplined_nil | lia].
Qed.

Lemma grows_silent {A} (c : M W A) :
  (forall s, bus_log (c s).2 = bus_log s) -> steps_in (log_grows 0) c.
Proof.
  intros H s. exists []. rewrite H, app_nil_r.
  split; [reflexivity |]. split; [apply disciplined_nil | simpl; lia].
Qed.

Lemma grows_bind {A B} n m (c : M W A) (k : A -> M W B) :
  steps_in (log_grows n) c -> (forall x, steps_in (log_grows m) (k x)) ->
  steps_in (log_grows (n + m)) (x <- c ;; k x).
Proof.
  intros Hc Hk s. unfold bind.
  specialize (Hc s). destruct (c s) as [a s1]. simpl in Hc.
  destruct Hc as (l1 & E1 & D1 & N1).
  destruct (Hk a s1) as (l2 & E2 & D2 & N2).
  exists (l1 ++ l2). rewrite E2, E1, app_assoc.
  split; [reflexivity |]. split; [now apply disciplined_app |].
  rewrite exchanges_app. lia.
Qed.

Lemma grows_weaken {A} n m (c : M W A) :
  (n <= m)%nat -> steps_in (log_grows n) c -> steps_in (log_grows m) c.
Proof.
  intros Hnm Hc s. destruct (Hc s) as (l & E & D & N).
  exists l. repeat split; try assumption. lia.
Qed.

Lemma grows_if {A} n (b : bool) (c1 c2 : M W A) :
  steps_in (log_grows n) c1 -> steps_in (log_grows n) c2 ->
  steps_in (log_grows n) (if b then c1 else c2).
Proof. now destruct b. Qed.

(** [if (!c) return false; k] *)
Lemma grows_guard n m (c k : M W bool) :
  steps_in (log_grows n) c -> steps_in (log_grows m) k ->
  steps_in (log_grows (n + m)) (ok <- c ;; if negb ok then ret false else k).
Proof.
  intros Hc Hk. apply grows_bind; [exact Hc |].
  intros ok. apply grows_if; [| exact Hk].
  apply (grows_weaken 0); [lia | apply grows_ret].
Qed.

Lemma grows_after_silent {A} m (g : M W A) (k : A -> M W bool) :
  (forall s, bus_log (g s).2 = bus_log s) ->
  (forall x, steps_in (log_grows m) (k x)) ->
  steps_in (log_grows m) (x <- g ;; k x).
Proof.
  intros Hg Hk. change m with (0 + m)%nat.
  apply grows_bind; [now apply grows_silent | exact Hk].
Qed.

Lemma grows_readReg nmbr addr : steps_in (W := W) (log_grows 1) (readReg nmbr addr).
Proof.
  intros s. rewrite readReg_run. cbn [snd after_read bus_log].
  eexists. split; [reflexivity |].
  split; [apply disciplined_read_calls | now rewrite exchanges_read_calls].
Qed.

Lemma grows_writeReg nmbr addr data :
  steps_in (W := W) (log_grows 1) (writeReg nmbr addr data).
Proof.
  intros s. rewrite writeReg_run. cbn [snd after_write bus_log].
  eexists. split; [reflexivity |].
  split; [apply disciplined_write_calls | simpl; lia].
Qed.

(** One iteration of a read loop followed by the rest of it. *)
Lemma grows_read_step {A} m nmbr addr (g : Z -> M W A) (k : M W bool) :
  (forall r s, bus_log (g r s).2 = bus_log s) ->
  steps_in (log_grows m) k ->
  steps_in (log_grows (S m))
    (ok <- readReg nmbr addr ;;
     if negb ok then ret false else r <- get_regReply ;; g r ;; k).
Proof.
  intros Hg Hk. change (S m) with (1 + m)%nat.
  apply grows_guard; [apply grows_readReg |].
  apply grows_after_silent; [reflexivity | intros r].
  apply grows_after_silent; [apply Hg | intros _; exact Hk].
Qed.

Lemma grows_getData_loop n : forall reg addr,
  steps_in (W := W) (log_grows n) (getData_loop n reg addr).
Proof.
  induction n as [|n IH]; intros reg addr; cbn [getData_loop].
  - apply grows_ret.
  - apply grows_read_step; [reflexivity | apply IH].
Qed.

Lemma grows_Get_Prod_Code_loop n : forall i p_cod adr,
  steps_in (W := W) (log_grows n) (Get_Prod_Code_loop n i p_cod adr).
Proof.
  induction n as [|n IH]; intros i p_cod adr; cbn [Get_Prod_Code_loop].
  - apply grows_ret.
  - apply grows_read_step; [reflexivity | apply IH].
Qed.

Lemma grows_Get_Firmware_Version_loop n : forall i p_ver adr,
  steps_in (W := W) (log_grows n) (Get_Firmware_Version_loop n i p_ver adr).
Proof.
  induction n as [|n IH]; intros i p_ver adr; cbn [Get_Firmware_Version_loop].
  - apply grows_ret.
  - apply grows_read_step; [reflexivity | apply IH].
Qed.

Lemma grows_read_pair lo hi p adr :
  steps_in (W := W) (log_grows 2) (read_pair lo hi p adr).
Proof.
  unfold read_pair.
  apply grows_read_step; [reflexivity |].
  apply (grows_read_step 0); [reflexivity | apply grows_ret].
Qed.

Lemma grows_getData dist flux temp addr :
  steps_in (W := W) (log_grows 6) (getData dist flux temp addr).
Proof.
  unfold getData.
  apply grows_after_silent; [reflexivity | intros _].
  change 6%nat with (6 + 0)%nat.
  apply grows_guard; [apply grows_getData_loop |].
  apply grows_silent. intros s.
  unfold bind, get_dataArray, poke16, peek_i16, set_tfStatus, ret. cbn [fst snd].
  destruct (_ <? _); [reflexivity |]. destruct (_ =? _); reflexivity.
Qed.

(** X14.  Every operation keeps the discipline of the bus and a bound
    on its traffic: what it adds to the bus history is a run of complete
    exchanges (no byte written outside a transmission, no transmission
    left open, no request left pending, [read] only after [peek]), and
    at most 6 of them for getData, 14 for Get_Prod_Code, 3 for
    Get_Firmware_Version, 2 for Get_Time, Set_Frame_Rate and
    Get_Frame_Rate, and 1 for every other command and primitive. *)
Theorem bus_discipline (op : Operation) (s : State W) :
  exists added,
    bus_log (run op s).2 = bus_log s ++ added /\
    disciplined added /\
    (exchanges added <= max_exchanges op)%nat.
Proof.
  revert s. change (steps_in (log_grows (max_exchanges op)) (run op)).
  destruct op; cbn [run max_exchanges];
    try apply grows_writeReg; try apply grows_readReg.
  - apply grows_getData.
  - apply grows_getData.
  - apply grows_read_pair.
  - apply grows_Get_Prod_Code_loop.
  - apply grows_Get_Firmware_Version_loop.
  - unfold Set_Frame_Rate.
    apply grows_after_silent; [reflexivity | intros b0].
    apply (grows_guard 1 1); [apply grows_writeReg |].
    apply grows_after_silent; [reflexivity | intros b1].
    apply (grows_guard 1 0); [apply grows_writeReg | apply grows_ret].
  - apply grows_read_pair.
Qed.


End Coverage.

(** ** On a transport whose registers keep what is written *)

Section Echo.
Context {W : Type} {wire : TwoWire W} {regs : RegisterMap}.
Context {echo : EchoRegisters W}.

Lemma u8_idem y : u8 (u8 y) = u8 y.
Proof. apply u8_small, u8_range. Qed.

(** X15.  The two primitives are inverse to each other on such a
    transport: after writeReg stored a byte in a register with success,
    a readReg of that register that succeeds leaves that byte, reduced
    to 8 bits, in regReply. *)
Theorem write_then_read nmbr addr data (s s1 s2 : State W) :
  writeReg nmbr addr data s = (true, s1) ->
  readReg nmbr addr s1 = (true, s2) ->
  regReply s2 = u8 data.
Proof.
  rewrite writeReg_run, readReg_run.
  destruct (bus_write nmbr addr data (_Wire s)) as [rc w1] eqn:Hw.
  cbn [fst snd]. intros H1.
  injection H1 as Hrc <-.
  apply Z.eqb_eq in Hrc. subst rc.
  cbn [after_write _Wire].
  destruct (bus_read nmbr addr w1) as [[rc| |v] w2] eqn:Hr;
    cbn [fst snd read_ok]; intros H2; try discriminate H2.
  injection H2 as <-. cbn [after_read regReply].
  destruct (held_read _ _ _ _ _ Hr) as [-> _].
  rewrite (held_write _ _ _ _ _ Hw), Z.eqb_refl.
  apply u8_idem.
Qed.

(** Reads that deliver their bytes deliver what the registers hold and
    change none of them. *)
Lemma bus_reads_held n : forall reg addr (w : W) vs w',
  bus_reads n reg addr w = Some (vs, w') ->
  (forall r, held w' addr r = held w addr r) /\
  forall (j : nat) v, vs !! j = Some v ->
    v = u8 (held w addr (u8 (reg + Z.of_nat j))).
Proof.
  induction n as [|n IH]; intros reg addr w vs w' H; simpl in H.
  - injection H as <- <-. split; [reflexivity | intros j v Hj; discriminate Hj].
  - destruct (bus_read (u8 reg) addr w) as [[rc| |v0] w1] eqn:E; try discriminate.
    destruct (bus_reads n (reg + 1) addr w1) as [[vs' w2]|] eqn:E'; try discriminate.
    injection H as <- <-.
    destruct (held_read _ _ _ _ _ E) as [Hv0 Hkeep].
    destruct (IH _ _ _ _ _ E') as [Hkeep' Hvs].
    split.
    + intros r. now rewrite Hkeep', Hkeep.
    + intros [|j] v Hj; simpl in Hj.
      * injection Hj as <-. rewrite u8_idem in Hv0.
        now rewrite Z.add_0_r.
      * rewrite (Hvs j v Hj), Hkeep.
        do 2 f_equal. f_equal. lia.
Qed.

(** X16.  On such a transport, take a getData whose [dataArray] has its
    six elements, whose six reads deliver their bytes, and whose three
    caller variables (distance, flux, temperature) are objects no two of
    which share a byte.  It hands the caller the contents of registers
    0 to 5, assembled little-endian (distance from 0 and 1, flux from 2
    and 3, temperature from 4 and 5), and leaves every register of the
    device as it was. *)
Theorem getData_reads_device dist flux temp addr (s : State W) vs w' :
  length (dataArray s) = 6%nat ->
  bus_reads 6 TFL_DIST_LO addr (_Wire s) = Some (vs, w') ->
  apart dist flux -> apart dist temp -> apart flux temp ->
  let out := getData dist flux temp addr s in
  let reg r := u8 (held (_Wire s) addr r) in
  load_i16 (ram out.2) dist = le16 (reg 0) (reg 1) /\
  load_i16 (ram out.2) flux = le16 (reg 2) (reg 3) /\
  load_i16 (ram out.2) temp = le16 (reg 4) (reg 5) /\
  forall r, held (_Wire out.2) addr r = held (_Wire s) addr r.
Proof.
  intros Hlen H Hdf Hdt Hft. cbv zeta.
  destruct (bus_reads_bytes _ _ _ _ _ _ H) as [Hl _].
  destruct (bus_reads_held _ _ _ _ _ _ H) as [Hkeep Hvs].
  destruct vs as [|b0 [|b1 [|b2 [|b3 [|b4 [|b5 [|b6 vs]]]]]]]; try discriminate.
  rewrite (getData_run _ _ _ _ _ _ _ _ _ _ _ _ Hlen H).
  cbn [snd ram _Wire].
  rewrite measured_dist, measured_flux, measured_temp by assumption.
  rewrite (Hvs 0%nat b0 eq_refl), (Hvs 1%nat b1 eq_refl), (Hvs 2%nat b2 eq_refl),
    (Hvs 3%nat b3 eq_refl), (Hvs 4%nat b4 eq_refl), (Hvs 5%nat b5 eq_refl).
  repeat split; exact Hkeep.
Qed.

End Echo.

(** ** Diagnostics *)

(** X17.  printStatus tells the status codes apart: two codes that print
    the same text are the same code, so each of the fourteen codes it
    names has a text of its own and none of them prints as OTHER. *)
Theorem status_text_injective c1 c2 :
  status_text c1 = status_text c2 -> c1 = c2.
Proof.
  destruct c1, c2; simpl; intros H; first [reflexivity | discriminate H].
Qed.

Lemma string_length_append (a b : String.string) :
  String.length (String.append a b) = (String.length a + String.length b)%nat.
Proof. induction a as [|c a IH]; simpl; [reflexivity | now rewrite IH]. Qed.

Lemma arduino_HEX_one b : 0 <= b < 16 -> String.length (arduino_HEX b) = 1%nat.
Proof.
  intros Hb. unfold arduino_HEX. cbn [printNumber].
  now rewrite Z.div_small.
Qed.

Lemma arduino_HEX_two b : 16 <= b < 256 -> String.length (arduino_HEX b) = 2%nat.
Proof.
  intros Hb. unfold arduino_HEX. cbn [printNumber].
  assert (H1 : 1 <= b / 16 < 16).
  { split; [apply Z.div_le_lower_bound; lia | apply Z.div_lt_upper_bound; lia]. }
  destruct (b / 16 =? 0) eqn:E; [apply Z.eqb_eq in E; lia |].
  rewrite (Z.div_small (b / 16)) by lia. reflexivity.
Qed.

Section Widths.
Variable print_HEX : Z -> String.string.
Hypothesis HEX_one : forall b, 0 <= b < 16 -> String.length (print_HEX b) = 1%nat.
Hypothesis HEX_two : forall b, 16 <= b < 256 -> String.length (print_HEX b) = 2%nat.

Lemma print_byte_width b :
  0 <= b < 256 -> String.length (print_byte print_HEX b) = 3%nat.
Proof.
  intros Hb. unfold print_byte. rewrite !string_length_append.
  destruct (b <? 16) eqn:E.
  - apply Z.ltb_lt in E. rewrite HEX_one by lia. reflexivity.
  - apply Z.ltb_ge in E. rewrite HEX_two by lia. reflexivity.
Qed.

(** X18.  printDataArray prints every byte of the frame in two
    characters after a space, a byte below 16 getting a leading 0: with
    a [Serial.print(b, HEX)] that prints one digit below 16 and two from
    16 to 255, the line is the status text followed by 26 characters,
    whatever the six bytes are. *)
Theorem printDataArray_width {W} (s : State W) :
  length (dataArray s) = 6%nat ->
  Forall (fun b => 0 <= b < 256) (dataArray s) ->
  String.length (printDataArray print_HEX s) =
  (String.length (printStatus s) + 26)%nat.
Proof.
  intros Hlen Hbytes. unfold printDataArray.
  destruct (dataArray s) as [|a0 [|a1 [|a2 [|a3 [|a4 [|a5 [|a6 l]]]]]]];
    try discriminate.
  repeat match goal with
         | Hb : Forall _ (_ :: _) |- _ =>
             let Hx := fresh "Hbyte" in
             inversion Hb as [|? ? Hx ?]; subst; clear Hb
         end.
  cbn [printDataArray_loop].
  repeat match goal with
         | |- context [nth ?i ?l ?d] =>
             let v := eval cbv in (nth i l d) in change (nth i l d) with v
         end.
  rewrite !string_length_append, !print_byte_width by assumption.
  simpl. lia.
Qed.

End Widths.

(** * The further properties at an input *)

Lemma getData_true_iff_witness :
  let s := on_script [Data 0x34; Data 0x12; Data 100; Data 0; Data 0xC4; Data 0x09] in
  (length (dataArray s) = 6%nat /\ apart 102 104) /\
  ((getData 100 102 104 0x10 s).1 = true <->
   exists b0 b1 b2 b3 b4 b5 w',
     bus_reads 6 TFL_DIST_LO 0x10 (_Wire s) = Some ([b0; b1; b2; b3; b4; b5], w') /\
     100 <= le16 b2 b3).
Proof.
  cbv zeta. split; [split; [reflexivity | unfold apart; lia] |].
  apply (getData_true_iff 100 102 104 0x10); [reflexivity | unfold apart; lia].
Defined.

Lemma getData_short_policy_witness :
  let s := on_script [Data 0x34; Data 0x12; Data 99; Data 0; Data 0xC4; Data 0x09] in
  let out := getData_short 102 104 100 0x10 s in
  load_i16 (ram out.2) 100 = le16 0x34 0x12 /\
  (100 <= le16 99 0 -> out.1 = true /\ tfStatus out.2 = TFL_READY) /\
  (le16 99 0 < 100 -> out.1 = false /\ tfStatus out.2 = TFL_WEAK).
Proof.
  cbv zeta.
  apply (getData_short_policy 102 104 100 0x10 _ 0x34 0x12 99 0 0xC4 0x09
           (mkScripted [] None));
    [reflexivity | reflexivity | unfold apart; lia | unfold apart; lia
    | unfold apart; lia].
Defined.

Lemma getData_failure_mixes_frame_witness :
  let s := on_script_after_frame [Data 0xAA; Data 0xBB; NoData] in
  dataArray (getData 100 102 104 0x10 s).2 = [0xAA; 0xBB] ++ drop 2 [1; 2; 3; 4; 5; 6].
Proof.
  cbv zeta.
  apply (getData_failure_mixes_frame 2 100 102 104 0x10
           (on_script_after_frame [Data 0xAA; Data 0xBB; NoData])
           [0xAA; 0xBB] (mkScripted [NoData] None) ReadEmpty (mkScripted [] None));
    [lia | reflexivity | reflexivity | reflexivity | reflexivity].
Defined.

Lemma Get_Firmware_Version_read_failure_witness :
  let s := on_script [Data 3; Nack 4; Data 1] in
  let out := Get_Firmware_Version 200 0x10 s in
  let added := reads_calls 1 0x0A 0x10 ++ read_calls (0x0A + Z.of_nat 1) 0x10 (ReadNack 4) in
  out.1 = false /\
  tfStatus out.2 = read_status (ReadNack 4) TFL_READY /\
  bus_log out.2 = bus_log s ++ added /\
  exchanges added = 2%nat /\
  _Wire out.2 = mkScripted [Data 1] None /\
  (forall x, x < 200 \/ 200 + Z.of_nat 1 <= x -> ram out.2 x = ram s x) /\
  (forall (j : nat) v, [3] !! j = Some v -> ram out.2 (200 + Z.of_nat j) = v).
Proof.
  cbv zeta.
  apply (Get_Firmware_Version_read_failure 1 200 0x10
           (on_script [Data 3; Nack 4; Data 1])
           [3] (mkScripted [Nack 4; Data 1] None) (ReadNack 4)
           (mkScripted [Data 1] None));
    [lia | reflexivity | reflexivity | reflexivity].
Defined.

Lemma Get_Time_assembles_witness :
  let s := on_script [Data 0xE8; Data 0x83] in
  let out := Get_Time (regs := TFLuna_registers) 100 0x10 s in
  out.1 = true /\
  tfStatus out.2 = tfStatus s /\
  load_u16 (ram out.2) 100 = 0xE8 + 0x83 * 256 /\
  0 <= 0xE8 + 0x83 * 256 < 65536 /\
  (forall x, x <> 100 -> x <> 100 + 1 -> ram out.2 x = ram s x).
Proof.
  cbv zeta.
  apply (Get_Time_assembles (regs := TFLuna_registers) 100 0x10
           (on_script [Data 0xE8; Data 0x83]) 0xE8 (mkScripted [Data 0x83] None)
           0x83 (mkScripted [] None));
    reflexivity.
Defined.

Lemma Get_Time_torn_witness :
  let s := (poke16 100 0x1234 (on_script [Data 0xE8; NoData])).2 in
  let out := Get_Time (regs := TFLuna_registers) 100 0x10 s in
  out.1 = false /\
  tfStatus out.2 = read_status ReadEmpty TFL_READY /\
  load_u16 (ram out.2) 100 = 0xE8 + 256 * (load_u16 (ram s) 100 / 256).
Proof.
  cbv zeta.
  apply (Get_Time_torn (regs := TFLuna_registers) 100 0x10
           (poke16 100 0x1234 (on_script [Data 0xE8; NoData])).2
           0xE8 (mkScripted [NoData] None) ReadEmpty (mkScripted [] None));
    reflexivity.
Defined.

Lemma Get_Frame_Rate_outcomes_witness :
  let s := (poke16 100 0x1234 (on_script [Data 0xE8; Nack 3])).2 in
  let out := Get_Frame_Rate (regs := TFLuna_registers) 100 0x10 s in
  out.1 = false /\
  tfStatus out.2 = read_status (ReadNack 3) TFL_READY /\
  load_u16 (ram out.2) 100 = 0xE8 + 256 * (load_u16 (ram s) 100 / 256).
Proof.
  cbv zeta.
  apply (Get_Frame_Rate_outcomes (regs := TFLuna_registers) 100 0x10
           (poke16 100 0x1234 (on_script [Data 0xE8; Nack 3])).2
           0xE8 (mkScripted [Nack 3] None) (ReadNack 3) (mkScripted [] None));
    reflexivity.
Defined.

Lemma writes_stay_in_footprint_witness :
  let s := on_script [Data 1; Data 2; Data 3; Data 4; Data 5; Data 6; Data 7;
                      Data 8; Data 9; Data 10; Data 11; Data 12; Data 13; Data 14] in
  ~ footprint (Op_Get_Prod_Code 200 0x10) 214 /\
  ram (run (regs := TFLuna_registers) (Op_Get_Prod_Code 200 0x10) s).2 214 = ram s 214.
Proof.
  cbv zeta.
  assert (H : ~ footprint (Op_Get_Prod_Code 200 0x10) 214)
    by (simpl; unfold within; lia).
  split; [exact H |].
  apply (writes_stay_in_footprint (regs := TFLuna_registers)
           (Op_Get_Prod_Code 200 0x10)); exact H.
Defined.

Lemma only_getData_writes_dataArray_witness :
  let s := on_script_after_frame [Data 0xE8; NoData] in
  is_getData (Op_Get_Frame_Rate 100 0x10) = false /\
  dataArray (run (regs := TFLuna_registers) (Op_Get_Frame_Rate 100 0x10) s).2 =
  dataArray s.
Proof.
  cbv zeta. split; [reflexivity |].
  apply (only_getData_writes_dataArray (regs := TFLuna_registers)
           (Op_Get_Frame_Rate 100 0x10)); reflexivity.
Defined.

Lemma write_then_read_witness :
  let s := fresh blank_device in
  let s1 := (writeReg 0x22 0x10 0x2A s).2 in
  let s2 := (readReg 0x22 0x10 s1).2 in
  (writeReg 0x22 0x10 0x2A s).1 = true /\
  (readReg 0x22 0x10 s1).1 = true /\
  regReply s2 = u8 0x2A.
Proof.
  cbv zeta.
  assert (H1 : (writeReg 0x22 0x10 0x2A (fresh blank_device)).1 = true)
    by (vm_compute; reflexivity).
  assert (H2 : (readReg 0x22 0x10
                  (writeReg 0x22 0x10 0x2A (fresh blank_device)).2).1 = true)
    by (vm_compute; reflexivity).
  split; [exact H1 |]. split; [exact H2 |].
  apply (write_then_read 0x22 0x10 0x2A (fresh blank_device)
           (writeReg 0x22 0x10 0x2A (fresh blank_device)).2
           (readReg 0x22 0x10 (writeReg 0x22 0x10 0x2A (fresh blank_device)).2).2).
  - rewrite <- H1. apply surjective_pairing.
  - rewrite <- H2. apply surjective_pairing.
Defined.

Lemma getData_reads_device_witness :
  let s := fresh sample_device in
  let out := getData 100 102 104 0x10 s in
  let reg r := u8 (held (_Wire s) 0x10 r) in
  load_i16 (ram out.2) 100 = le16 (reg 0) (reg 1) /\
  load_i16 (ram out.2) 102 = le16 (reg 2) (reg 3) /\
  load_i16 (ram out.2) 104 = le16 (reg 4) (reg 5) /\
  forall r, held (_Wire out.2) 0x10 r = held (_Wire s) 0x10 r.
Proof.
  cbv zeta.
  destruct (bus_reads 6 TFL_DIST_LO 0x10 (_Wire (fresh sample_device)))
    as [[vs w']|] eqn:E; [| vm_compute in E; discriminate E].
  apply (getData_reads_device 100 102 104 0x10 (fresh sample_device) vs w');
    [reflexivity | exact E | unfold apart; lia | unfold apart; lia
    | unfold apart; lia].
Defined.

Lemma status_text_injective_witness :
  status_text TFL_I2CREAD = status_text TFL_I2CREAD /\ TFL_I2CREAD = TFL_I2CREAD.
Proof.
  split; [reflexivity |].
  apply (status_text_injective TFL_I2CREAD TFL_I2CREAD). reflexivity.
Defined.

Lemma printDataArray_width_witness :
  let s := on_script_after_frame [] in
  String.length (printDataArray arduino_HEX s) =
  (String.length (printStatus s) + 26)%nat.
Proof.
  cbv zeta.
  apply (printDataArray_width arduino_HEX arduino_HEX_one arduino_HEX_two).
  - reflexivity.
  - simpl. repeat (apply List.Forall_cons; [lia |]). apply List.Forall_nil.
Defined.
